(** * Instantaneous-planes post-processing plugin: model and properties

    A shallow embedding of [postproengine/instantaneousplanes.py]: the
    plugin [postpro_instantaneousplanes], its dispatcher [execute] and the
    actions [plot], [animate], [makegif] and [plot_radial].

    Conventions of the model.
    - Python objects that come from YAML or from [eval] are [value]s;
      dictionaries are finite maps from strings.
    - A Python float is represented by the rational number it denotes and
      floating-point arithmetic by exact rational arithmetic.
    - An exception is a [Raise] result; side effects (prints, files,
      figures, video frames) are recorded in an event log that survives a
      raise.
    - [str.format], [os.path.split] and [numpy.linspace] are modelled
      here; calls into matplotlib, OpenCV, imageio, the NetCDF reader and
      the Python evaluator are fields of a [World] record. *)

From Stdlib Require Import QArith Lqa Ascii String.
From stdpp Require Import gmap strings list fin_maps pretty.

Open Scope string_scope.
Open Scope list_scope.

(** ** Python values and exceptions *)

#[warnings="-register-all"]
Inductive value : Type :=
| VNone
| VBool (b : bool)
| VInt (z : Z)
| VFloat (q : Q)
| VStr (s : string)
| VList (l : list value)
| VDict (d : gmap string value)
| VFun (src : string).

Inductive exn : Type :=
| KeyError (key : string)
| IndexError
| TypeError
| AttributeError
| ValueError (msg : string)
| OtherError (msg : string).

Inductive result (A : Type) : Type :=
| Ok (a : A)
| Raise (e : exn).
Arguments Ok {A} a.
Arguments Raise {A} e.


#[global] Instance result_ret : MRet result := fun _ a => Ok a.
#[global] Instance result_bind : MBind result := fun _ _ f r =>
  match r with Ok a => f a | Raise e => Raise e end.

(** ** Effects: an event log that outlives a raise *)

Definition W (E A : Type) : Type := (list E * result A)%type.

#[global] Instance W_ret {E} : MRet (W E) := fun _ a => ([], Ok a).
#[global] Instance W_bind {E} : MBind (W E) := fun _ _ f m =>
  match m with
  | (l, Ok a) => let '(l', r) := f a in (l ++ l', r)
  | (l, Raise e) => (l, Raise e)
  end.

Definition emit {E} (e : E) : W E unit := ([e], Ok tt).
Definition lift {E A} (r : result A) : W E A := ([], r).
Definition raise {E A} (e : exn) : W E A := ([], Raise e).

(** [[body(k, x) for k, x in enumerate(xs, start)]] for a body without
    effects other than a raise *)
Fixpoint enumerate_from {A B} (start : nat) (body : nat → A → result B)
    (xs : list A) : result (list B) :=
  match xs with
  | [] => Ok []
  | x :: xs' =>
      y ← body start x;
      ys ← enumerate_from (S start) body xs';
      mret (y :: ys)
  end.

(** [for k, x in enumerate(xs, start): body(k, x)] *)
Fixpoint for_enumerate_from {E A} (start : nat) (body : nat → A → W E unit)
    (xs : list A) : W E unit :=
  match xs with
  | [] => mret tt
  | x :: xs' => _ ← body start x; for_enumerate_from (S start) body xs'
  end.

(** [for x in xs: body(x)] *)
Definition for_each {E A} (body : A → W E unit) (xs : list A) : W E unit :=
  for_enumerate_from 0 (λ _, body) xs.

(** ** Python built-ins on values *)

(** [d[k]] on a dictionary *)
Definition getitem (d : gmap string value) (k : string) : result value :=
  match d !! k with
  | Some v => Ok v
  | None => Raise (KeyError k)
  end.

(** [x is None] *)
Definition is_none (v : value) : bool :=
  match v with VNone => true | _ => false end.

(** [x == s] for a string literal [s] *)
Definition eq_str (v : value) (s : string) : bool :=
  match v with VStr s' => String.eqb s' s | _ => false end.

(** truth value of [x] in [if x:] *)
Definition truthy (v : value) : bool :=
  match v with
  | VNone => false
  | VBool b => b
  | VInt z => negb (z =? 0)%Z
  | VFloat q => negb (Qeq_bool q 0)
  | VStr s => negb (String.eqb s "")
  | VList l => negb (Nat.eqb (length l) 0)
  | VDict d => negb (Nat.eqb (size d) 0)
  | VFun _ => true
  end.

(** [len(x)] *)
Definition py_len (v : value) : result nat :=
  match v with
  | VStr s => Ok (String.length s)
  | VList l => Ok (length l)
  | VDict d => Ok (size d)
  | _ => Raise TypeError
  end.

Fixpoint chars (s : string) : list value :=
  match s with
  | EmptyString => []
  | String c r => VStr (String c EmptyString) :: chars r
  end.

(** the items visited by [for x in v]; a dictionary yields its keys (in
    the key order of the finite map) *)
Definition py_iter (v : value) : result (list value) :=
  match v with
  | VList l => Ok l
  | VStr s => Ok (chars s)
  | VDict d => Ok (VStr <$> (map_to_list d).*1)
  | _ => Raise TypeError
  end.

(** [v[k]] for a position [k >= 0] *)
Definition py_index (v : value) (k : nat) : result value :=
  match v with
  | VList l => match l !! k with Some x => Ok x | None => Raise IndexError end
  | VStr s => match chars s !! k with Some x => Ok x | None => Raise IndexError end
  | _ => Raise TypeError
  end.

(** [eval(x)]: only source text is evaluated, by the world's evaluator *)
Definition py_eval (evaluator : string → result value) (v : value) : result value :=
  match v with
  | VStr s => evaluator s
  | _ => Raise TypeError
  end.

(** a Python number as a rational *)
Definition as_number (v : value) : result Q :=
  match v with
  | VInt z => Ok (inject_Z z)
  | VFloat q => Ok q
  | VBool b => Ok (if b then 1 else 0)%Q
  | _ => Raise TypeError
  end.

(** [operator.index(x)] *)
Definition as_index (v : value) : result Z :=
  match v with
  | VInt z => Ok z
  | VBool b => Ok (if b then 1 else 0)%Z
  | _ => Raise TypeError
  end.

(** ** [str.format] with keyword arguments

    The scanner follows CPython's markup iterator: literal text, the
    escapes [{{] and [}}], and replacement fields
    [{field_name!conversion:format_spec}]. *)

Inductive piece : Type :=
| PLit (c : ascii)
| PField (field_name : string) (conversion : option ascii) (format_spec : string).

Inductive scan_state : Type :=
| SText
| SOpen
| SClose
| SName (name : string) (in_brackets : bool)
| SConversion (name : string)
| SAfterConversion (name : string) (conv : ascii)
| SSpec (name : string) (conv : option ascii) (spec : string) (depth : nat).

Definition snoc (s : string) (c : ascii) : string := s +:+ String c "".

Definition is_char (c : ascii) (d : string) : bool :=
  String.eqb (String c "") d.

(** one character inside a field name *)
Definition step_name (name : string) (in_brackets : bool) (c : ascii)
    : list piece * result scan_state :=
  if in_brackets then ([], Ok (SName (snoc name c) (negb (is_char c "]"))))
  else if is_char c "{" then ([], Raise (ValueError "unexpected '{' in field name"))
  else if is_char c "[" then ([], Ok (SName (snoc name c) true))
  else if is_char c "}" then ([PField name None ""], Ok SText)
  else if is_char c ":" then ([], Ok (SSpec name None "" 1))
  else if is_char c "!" then ([], Ok (SConversion name))
  else ([], Ok (SName (snoc name c) false)).

Definition step (st : scan_state) (c : ascii) : list piece * result scan_state :=
  match st with
  | SText =>
      if is_char c "{" then ([], Ok SOpen)
      else if is_char c "}" then ([], Ok SClose)
      else ([PLit c], Ok SText)
  | SOpen =>
      if is_char c "{" then ([PLit c], Ok SText) else step_name "" false c
  | SClose =>
      if is_char c "}" then ([PLit c], Ok SText)
      else ([], Raise (ValueError "Single '}' encountered in format string"))
  | SName name in_brackets => step_name name in_brackets c
  | SConversion name => ([], Ok (SAfterConversion name c))
  | SAfterConversion name conv =>
      if is_char c "}" then ([PField name (Some conv) ""], Ok SText)
      else if is_char c ":" then ([], Ok (SSpec name (Some conv) "" 1))
      else ([], Raise (ValueError "expected ':' after conversion specifier"))
  | SSpec name conv spec depth =>
      if is_char c "{" then ([], Ok (SSpec name conv (snoc spec c) (S depth)))
      else if is_char c "}" then
        match depth with
        | 1 => ([PField name conv spec], Ok SText)
        | _ => ([], Ok (SSpec name conv (snoc spec c) (pred depth)))
        end
      else ([], Ok (SSpec name conv (snoc spec c) depth))
  end.

(** the error raised when the template ends in state [st] *)
Definition at_end (st : scan_state) : option exn :=
  match st with
  | SText => None
  | SOpen => Some (ValueError "Single '{' encountered in format string")
  | SClose => Some (ValueError "Single '}' encountered in format string")
  | SName _ _ => Some (ValueError "expected '}' before end of string")
  | SConversion _ =>
      Some (ValueError "end of string while looking for conversion specifier")
  | SAfterConversion _ _ | SSpec _ _ _ _ =>
      Some (ValueError "unmatched '{' in format spec")
  end.

(** the pieces of a template, in order, and the error that stops the scan *)
Fixpoint scan (st : scan_state) (s : string) : list piece * option exn :=
  match s with
  | EmptyString => ([], at_end st)
  | String c r =>
      match step st c with
      | (ps, Ok st') => let '(ps', e) := scan st' r in (ps ++ ps', e)
      | (ps, Raise e) => (ps, Some e)
      end
  end.

(** the argument name of a field name: the text before the first [.] or [[] *)
Fixpoint split_field_name (name : string) : string * string :=
  match name with
  | EmptyString => ("", "")
  | String c r =>
      if is_char c "." || is_char c "[" then ("", name)
      else let '(first, rest) := split_field_name r in (String c first, rest)
  end.

Fixpoint all_digits (s : string) : bool :=
  match s with
  | EmptyString => true
  | String c r => (Ascii.leb "0" c && Ascii.leb c "9") && all_digits r
  end.

Definition kwargs : Type := list (string * value).

Fixpoint kw_lookup (kw : kwargs) (k : string) : option value :=
  match kw with
  | [] => None
  | (k', v) :: kw' => if String.eqb k' k then Some v else kw_lookup kw' k
  end.

(** What Python does with a looked-up argument: attribute and index
    accessors, conversion, expansion of the format spec and
    [format(value, spec)]. *)
Definition field_formatter : Type :=
  kwargs → value → string → option ascii → string → result string.

(** one replacement field; [format] is called with keyword arguments only,
    so a numbered or empty argument name finds no positional argument *)
Definition render_field (fmt : field_formatter) (kw : kwargs)
    (name : string) (conv : option ascii) (spec : string) : result string :=
  let '(first, accessors) := split_field_name name in
  if all_digits first then Raise IndexError
  else match kw_lookup kw first with
       | None => Raise (KeyError first)
       | Some v => fmt kw v accessors conv spec
       end.

Fixpoint render (fmt : field_formatter) (kw : kwargs) (ps : list piece)
    : result string :=
  match ps with
  | [] => Ok ""
  | PLit c :: ps' => r ← render fmt kw ps'; mret (String c r)
  | PField name conv spec :: ps' =>
      s ← render_field fmt kw name conv spec;
      r ← render fmt kw ps';
      mret (s +:+ r)
  end.

(** [template.format(k1=v1, ...)] *)
Definition str_format (fmt : field_formatter) (template : string) (kw : kwargs)
    : result string :=
  let '(ps, e) := scan SText template in
  out ← render fmt kw ps;
  match e with
  | None => Ok out
  | Some err => Raise err
  end.

(** [v.format(k1=v1, ...)]: only strings have the method *)
Definition py_format (fmt : field_formatter) (v : value) (kw : kwargs)
    : result string :=
  match v with
  | VStr template => str_format fmt template kw
  | _ => Raise AttributeError
  end.

(** ** [os.path.split] (posixpath) *)

(** the text up to and including the last [/], and the text after it *)
Fixpoint cut_last_slash (p : string) : option (string * string) :=
  match p with
  | EmptyString => None
  | String c r =>
      match cut_last_slash r with
      | Some (h, t) => Some (String c h, t)
      | None => if is_char c "/" then Some (String c "", r) else None
      end
  end.

Fixpoint all_slashes (s : string) : bool :=
  match s with
  | EmptyString => true
  | String c r => is_char c "/" && all_slashes r
  end.

(** [s.rstrip('/')] *)
Fixpoint rstrip_slash (s : string) : string :=
  match s with
  | EmptyString => ""
  | String c r => if all_slashes s then "" else String c (rstrip_slash r)
  end.

Definition os_path_split (p : string) : string * string :=
  match cut_last_slash p with
  | None => ("", p)
  | Some (head, tail) =>
      (if all_slashes head then head else rstrip_slash head, tail)
  end.

(** [os.path.split(v)] on a value *)
Definition py_path_split (v : value) : result (string * string) :=
  match v with
  | VStr p => Ok (os_path_split p)
  | _ => Raise TypeError
  end.

(** ** [numpy.linspace(start, stop, num)] with [endpoint=True] *)

(** [y[-1] = stop] *)
Fixpoint set_last (y : list Q) (stop : Q) : list Q :=
  match y with
  | [] => []
  | [_] => [stop]
  | x :: y' => x :: set_last y' stop
  end.

Definition linspace (start stop : Q) (num : Z) : result (list Q) :=
  if (num <? 0)%Z then
    Raise (ValueError "Number of samples must be non-negative")
  else
    let div := (num - 1)%Z in
    let delta := (stop - start)%Q in
    let y := (λ k, inject_Z (Z.of_nat k)) <$> seq 0 (Z.to_nat num) in
    let y :=
      if (0 <? div)%Z then
        let step := (delta / inject_Z div)%Q in
        (λ x, x * step)%Q <$> y
      else (λ x, x * delta)%Q <$> y in
    let y := (λ x, x + start)%Q <$> y in
    Ok (if (1 <? num)%Z then set_last y stop else y).


(** [numpy.pi], the double nearest to pi, as the rational it denotes *)
Definition np_pi : Q := 884279719003555 # 281474976710656.

(** ** Option schemas and [mergedicts] *)

(** An option descriptor of [inputdefs] and [actiondefs]; the help text is
    left out. *)
Record optdef : Type := OptDef {
  opt_key : string;
  opt_required : bool;
  opt_default : value;
}.

(** Modelled from the spec: [mergedicts] of the [postproengine] package is
    imported by the source file and is not part of it.  The specification
    describes a configuration as "a mapping of declared option names to
    values, defaulted from a static schema and merged with user input" and
    names a missing required key as an error condition.  The keys of the
    user input that the schema does not declare are kept: [execute] looks
    the action sub-dictionaries up in the merged plane dictionary. *)
Fixpoint mergedicts (inputs : gmap string value) (defs : list optdef)
    : result (gmap string value) :=
  match defs with
  | [] => Ok inputs
  | d :: defs' =>
      match inputs !! opt_key d with
      | Some _ => mergedicts inputs defs'
      | None =>
          if opt_required d then
            Raise (ValueError ("Problem, missing required key " +:+ opt_key d))
          else mergedicts (<[opt_key d := opt_default d]> inputs) defs'
      end
  end.

(** the user input of a plugin or action must be a dictionary *)
Definition as_dict (v : value) : result (gmap string value) :=
  match v with
  | VDict d => Ok d
  | _ => Raise TypeError
  end.

(** ** Plugin state, events and the outside world *)

(** The attributes [execute] sets on the plugin instance and the actions
    read through [self.parent]. *)
Record parent : Type := Parent {
  xaxis : value;
  yaxis : value;
  times : value;
  trange : value;
  iplane : value;
  db : gmap string value;
  iters : value;
}.

(** [name] of the plugin class *)
Definition name : string := "instantaneousplanes".

Record image : Type := Image {
  img_height : nat;
  img_width : nat;
  img_layers : nat;
  img_pixels : string;
}.

(** Observable effects of the actions. *)
Inductive io : Type :=
| Stdout (s : string)
| PickleDump (file : value) (data : gmap string value)
| Colorbar (label : value)
| SetTicks (ticks : list Q)
| PolarFrame (i time : value)
| Makedirs (dir : string)
| Savefig (file : string)
| VideoWriter (video_name fps : value) (width height : nat)
| VideoWrite (frame : option image)
| VideoRelease
| Mimsave (video_name : value) (frames : list image) (fps : value).

(** Effects of the dispatcher: the actions it instantiates and executes
    for the plane at position [planeiter], around the effects of the
    actions themselves. *)
Inductive event : Type :=
| Construct (planeiter : nat) (actionname : string)
| Execute (planeiter : nat) (actionname : string)
| IO (e : io).

Definition liftIO {A} (m : W io A) : W event A :=
  let '(l, r) := m in (IO <$> l, r).

(** The options of [plot] after the look-ups and [eval]s that open its
    [execute]. *)
Record plot_opts : Type := PlotOpts {
  po_plotfunc : value;
  po_title : value;
  po_clevels : value;
  po_cmap : value;
  po_cbar_inc : value;
  po_cbar_nticks : value;
  po_cbar_label : value;
  po_xlabel : value;
  po_ylabel : value;
  po_xlim : value;
  po_ylim : value;
  po_savefile : value;
  po_dpi : value;
  po_figsize : value;
  po_fontsize : value;
  po_postplotfunc : value;
  po_xscalef : value;
  po_yscalef : value;
  po_figname : value;
  po_axesnumf : value;
  po_axisscale : value;
  po_plotturbs : value;
}.

(** The options of [plot_radial] likewise. *)
Record radial_opts : Type := RadialOpts {
  ro_plotfunc : value;
  ro_title : value;
  ro_cmap : value;
  ro_cbar_inc : value;
  ro_savefile : value;
  ro_dpi : value;
  ro_figsize : value;
  ro_NR : value;
  ro_NTheta : value;
  ro_LR : value;
  ro_vmin : value;
  ro_vmax : value;
  ro_xcenter : value;
  ro_ycenter : value;
}.

(** The collaborators the module calls and does not define. *)
Record World : Type := {
  (** whether [import imageio] succeeded *)
  hasimageio : bool;
  (** [ppsamplexr.getPlaneXR(ncfile, iters, varnames, groupname=group,
      verbose=verbose, gettimes=True, includeattr=True, timerange=trange,
      times=times)] *)
  getPlaneXR : value → value → value → value → bool → value → value →
               result (gmap string value);
  (** [compute_axis1axis2_coords(db)], which adds the plane-local axes *)
  compute_axis1axis2_coords : gmap string value → result (gmap string value);
  (** [eval] of source text *)
  evaluator : string → result value;
  (** field formatting of [str.format] *)
  formatter : field_formatter;
  (** plot lines 270-280: choose or create the axes, call [plotfunc(db, i)]
      and [contourf]; the result is [c.levels] *)
  contourf : parent → plot_opts → value → result (list Q);
  (** plot lines 297-341: labels, title, axis limits, turbines and the
      post-plot hook, given [i] and [time] *)
  decorate : parent → plot_opts → value → value → result unit;
  (** [cv2.imread], [None] for a file that cannot be read *)
  imread : string → option image;
  (** [cv2.cvtColor(img, cv2.COLOR_BGR2RGB)] *)
  cvtColor : image → image;
  (** plot_radial lines 529-546: figure, [plotfunc(db, i)], interpolation
      to the polar grid [r], [theta], [pcolormesh] and decorations *)
  pcolormesh : parent → radial_opts → list Q → list Q → value → value →
               result unit;
  (** the [interpolatetemplate] base class of the [interpolate] action *)
  interpolate_required : bool;
  interpolate_init : parent → value → W io (gmap string value);
  interpolate_execute : parent → gmap string value → W io unit;
}.

(** An action class registered in [actionlist]: its [actionname] and
    [required] attributes, its constructor, which yields the merged
    configuration it stores as [self.actiondict], and its [execute]. *)
Record action : Type := Action {
  actionname : string;
  required : bool;
  init : parent → value → W io (gmap string value);
  run : parent → gmap string value → W io unit;
}.

(** The constructor shared by [plot], [animate], [makegif] and
    [plot_radial]: merge the inputs with [actiondefs] and report. *)
Definition action_init (aname : string) (actiondefs : list optdef)
    (p : parent) (inputs : value) : W io (gmap string value) :=
  actiondict ← lift (d ← as_dict inputs; mergedicts d actiondefs);
  _ ← emit (Stdout ("Initialized " +:+ aname +:+ " inside " +:+ name));
  mret actiondict.

(** [eval(d[k])] *)
Definition get_eval (w : World) (d : gmap string value) (k : string)
    : result value :=
  v ← getitem d k; py_eval (evaluator w) v.

(** The keyword arguments of the file-name templates. *)
Definition frame_kwargs (time iplane i : value) : kwargs :=
  [("time", time); ("iplane", iplane); ("iter", i)].

Definition frame_kwargs_noiter (time iplane : value) : kwargs :=
  [("time", time); ("iplane", iplane)].

(** [self.parent.db['times'][iplot]] *)
Definition parent_time (p : parent) (iplot : nat) : result value :=
  dbtimes ← getitem (db p) "times";
  py_index dbtimes iplot.

(** [directory, file_name = os.path.split(path); directory += '/';
    os.makedirs(directory, exist_ok=True)] *)
Definition make_parent_dir (path : string) : W io unit :=
  emit (Makedirs ((os_path_split path).1 +:+ "/")).

(** ** The [plot] action *)

Definition plot_actiondefs : list optdef := [
  OptDef "title" false (VStr "");
  OptDef "plotfunc" false
    (VStr "lambda db,i: np.sqrt(db['velocityx'][i]**2 + db['velocityy'][i]**2)");
  OptDef "clevels" false (VStr "np.linspace(0, 12, 121)");
  OptDef "cmap" false (VStr "coolwarm");
  OptDef "cbar" false (VBool true);
  OptDef "cbar_label" false VNone;
  OptDef "cbar_nticks" false VNone;
  OptDef "xlabel" false (VStr "X [m]");
  OptDef "ylabel" false (VStr "Y [m]");
  OptDef "xlim" false VNone;
  OptDef "ylim" false VNone;
  OptDef "dpi" false (VInt 125);
  OptDef "figsize" false (VList [VInt 12; VInt 3]);
  OptDef "fontsize" false (VInt 14);
  OptDef "savefile" false (VStr "");
  OptDef "postplotfunc" false (VStr "");
  OptDef "xscalefunc" false (VStr "lambda x: x");
  OptDef "yscalefunc" false (VStr "lambda y: y");
  OptDef "figname" false VNone;
  OptDef "axesnumfunc" false VNone;
  OptDef "axesnumfunc" false VNone;
  OptDef "axisscale" false (VStr "scaled");
  OptDef "plotturbines" false VNone
].

(** the look-ups and [eval]s at the head of [plot.execute], in source order *)
Definition plot_options (w : World) (actiondict : gmap string value)
    : result plot_opts :=
  plotfunc ← get_eval w actiondict "plotfunc";
  title ← getitem actiondict "title";
  clevels ← get_eval w actiondict "clevels";
  cmap ← getitem actiondict "cmap";
  cbar_inc ← getitem actiondict "cbar";
  cbar_nticks ← getitem actiondict "cbar_nticks";
  cbar_label ← getitem actiondict "cbar_label";
  xlabel ← getitem actiondict "xlabel";
  ylabel ← getitem actiondict "ylabel";
  xlim ← getitem actiondict "xlim";
  ylim ← getitem actiondict "ylim";
  savefile ← getitem actiondict "savefile";
  dpi ← getitem actiondict "dpi";
  figsize ← getitem actiondict "figsize";
  fontsize ← getitem actiondict "fontsize";
  postplotfunc ← getitem actiondict "postplotfunc";
  xscalef ← get_eval w actiondict "xscalefunc";
  yscalef ← get_eval w actiondict "yscalefunc";
  figname ← getitem actiondict "figname";
  axesnumfunc ← getitem actiondict "axesnumfunc";
  axesnumf ← (if is_none axesnumfunc then Ok VNone
              else py_eval (evaluator w) axesnumfunc);
  axisscale ← getitem actiondict "axisscale";
  plotturbs ← getitem actiondict "plotturbines";
  mret (PlotOpts plotfunc title clevels cmap cbar_inc cbar_nticks cbar_label
          xlabel ylabel xlim ylim savefile dpi figsize fontsize postplotfunc
          xscalef yscalef figname axesnumf axisscale plotturbs).

(** [levels[0]] and [levels[-1]] *)
Definition first_level (levels : list Q) : result Q :=
  match levels with
  | [] => Raise IndexError
  | a :: _ => Ok a
  end.

Definition last_level (levels : list Q) : result Q :=
  match last levels with
  | None => Raise IndexError
  | Some b => Ok b
  end.

(** the ticks [np.linspace(levels[0], levels[-1], cbar_nticks)] *)
Definition colorbar_ticks (levels : list Q) (cbar_nticks : value)
    : result (list Q) :=
  min_tick ← first_level levels;
  max_tick ← last_level levels;
  num ← as_index cbar_nticks;
  linspace min_tick max_tick num.

(** lines 281-295: the colorbar of one frame *)
Definition plot_colorbar (o : plot_opts) (levels : list Q) : W io unit :=
  if truthy (po_cbar_inc o) then
    _ ← emit (Colorbar (po_cbar_label o));
    if negb (is_none (po_cbar_nticks o)) then
      new_ticks ← lift (colorbar_ticks levels (po_cbar_nticks o));
      emit (SetTicks new_ticks)
    else mret tt
  else mret tt.

(** lines 343-348: save the frame *)
Definition plot_save (w : World) (p : parent) (o : plot_opts)
    (time i : value) : W io unit :=
  n ← lift (py_len (po_savefile o));
  if (0 <? n)%nat then
    savefname ← lift (py_format (formatter w) (po_savefile o)
                        (frame_kwargs time (iplane p) i));
    _ ← make_parent_dir savefname;
    emit (Savefig savefname)
  else mret tt.

(** the body of the loop over [enumerate(self.parent.iters)] *)
Definition plot_frame (w : World) (p : parent) (o : plot_opts)
    (iplot : nat) (i : value) : W io unit :=
  time ← lift (parent_time p iplot);
  levels ← lift (contourf w p o i);
  _ ← plot_colorbar o levels;
  _ ← lift (decorate w p o i time);
  plot_save w p o time i.

Definition plot_execute (w : World) (p : parent)
    (actiondict : gmap string value) : W io unit :=
  _ ← emit (Stdout "Executing plot");
  o ← lift (plot_options w actiondict);
  its ← lift (py_iter (iters p));
  for_enumerate_from 0 (plot_frame w p o) its.

Definition plot (w : World) : action :=
  Action "plot" false (action_init "plot" plot_actiondefs) (plot_execute w).

(** ** The [interpolate] action

    Its behaviour is inherited from [interpolatetemplate]. *)

Definition interpolate (w : World) : action :=
  Action "interpolate" (interpolate_required w)
    (interpolate_init w) (interpolate_execute w).

(** ** The [animate] action *)

Definition animate_actiondefs : list optdef := [
  OptDef "name" true (VStr "output.mp4");
  OptDef "fps" false (VInt 1);
  OptDef "imagefilename" true (VStr "");
  OptDef "times" false VNone
].

(** lines 391-393: the image file names, one for each item of
    [enumerate(self.parent.iters)] *)
Definition animate_images (w : World) (p : parent) (imagefilename : value)
    : result (list string) :=
  its ← py_iter (iters p);
  enumerate_from 0
    (λ iplot i,
       time ← parent_time p iplot;
       py_format (formatter w) imagefilename (frame_kwargs time (iplane p) i))
    its.

(** [images[0]] *)
Definition first_image (images : list string) : result string :=
  match images with
  | [] => Raise IndexError
  | f :: _ => Ok f
  end.

(** [frame = cv2.imread(f); height, width, layers = frame.shape]: [None]
    has no attribute [shape] *)
Definition read_shape (w : World) (f : string) : result image :=
  match imread w f with
  | None => Raise AttributeError
  | Some frame => Ok frame
  end.

Definition animate_execute (w : World) (p : parent)
    (actiondict : gmap string value) : W io unit :=
  _ ← emit (Stdout "Executing animate");
  video_name ← lift (getitem actiondict "name");
  '(directory, _) ← lift (py_path_split video_name);
  _ ← emit (Makedirs (directory +:+ "/"));
  fps ← lift (getitem actiondict "fps");
  imagefilename ← lift (getitem actiondict "imagefilename");
  images ← lift (animate_images w p imagefilename);
  first ← lift (first_image images);
  frame ← lift (read_shape w first);
  _ ← emit (VideoWriter video_name fps (img_width frame) (img_height frame));
  _ ← for_each (λ image, emit (VideoWrite (imread w image))) images;
  emit VideoRelease.

Definition animate (w : World) : action :=
  Action "animate" false (action_init "animate" animate_actiondefs)
    (animate_execute w).

(** ** The [makegif] action *)

Definition makegif_actiondefs : list optdef := [
  OptDef "name" true (VStr "output.mp4");
  OptDef "fps" false (VInt 1);
  OptDef "imagefilename" true (VStr "");
  OptDef "times" false VNone
].

(** lines 432-437: [Some times] when [eval(self.actiondict['times'])]
    returns, [None] when anything in it raises *)
Definition makegif_times (w : World) (actiondict : gmap string value)
    : option value :=
  match get_eval w actiondict "times" with
  | Ok times => Some times
  | Raise _ => None
  end.

(** [range(n)] *)
Definition py_range (n : nat) : list value :=
  (λ k, VInt (Z.of_nat k)) <$> seq 0 n.

(** lines 439-451: the image file names *)
Definition makegif_images (w : World) (p : parent)
    (actiondict : gmap string value) (imagefilename : value)
    : result (list string) :=
  let override := makegif_times w actiondict in
  its ← match override with
        | Some times => n ← py_len times; mret (py_range n)
        | None => py_iter (iters p)
        end;
  enumerate_from 0
    (λ iplot i,
       time ← match override with
              | Some times => py_index times iplot
              | None => parent_time p iplot
              end;
       py_format (formatter w) imagefilename
         (frame_kwargs_noiter time (iplane p)))
    its.

(** lines 454-459: the frames that could be read, converted to RGB *)
Fixpoint read_frames (w : World) (images : list string) : list image :=
  match images with
  | [] => []
  | f :: images' =>
      match imread w f with
      | Some img => cvtColor w img :: read_frames w images'
      | None => read_frames w images'
      end
  end.

Definition makegif_execute (w : World) (p : parent)
    (actiondict : gmap string value) : W io unit :=
  if negb (hasimageio w) then
    _ ← emit (Stdout "Cannot execute makegif");
    emit (Stdout "import imageio failed")
  else
    _ ← emit (Stdout "Executing makegif");
    video_name ← lift (getitem actiondict "name");
    '(directory, _) ← lift (py_path_split video_name);
    _ ← emit (Makedirs (directory +:+ "/"));
    fps ← lift (getitem actiondict "fps");
    imagefilename ← lift (getitem actiondict "imagefilename");
    images ← lift (makegif_images w p actiondict imagefilename);
    emit (Mimsave video_name (read_frames w images) fps).

Definition makegif (w : World) : action :=
  Action "makegif" false (action_init "makegif" makegif_actiondefs)
    (makegif_execute w).

(** ** The [plot_radial] action *)

Definition plot_radial_actiondefs : list optdef := [
  OptDef "title" false (VStr "");
  OptDef "plotfunc" false (VStr "lambda db,i: db['velocityx'][i]");
  OptDef "cmap" false (VStr "coolwarm");
  OptDef "cbar" false (VBool true);
  OptDef "dpi" false (VInt 125);
  OptDef "figsize" false (VList [VInt 8; VInt 5]);
  OptDef "savefile" false (VStr "");
  OptDef "vmin" false VNone;
  OptDef "vmax" false VNone;
  OptDef "LR" true VNone;
  OptDef "NR" true (VInt 256);
  OptDef "NTheta" true (VInt 256)
].

(** the look-ups at the head of [plot_radial.execute], in source order *)
Definition plot_radial_options (w : World) (actiondict : gmap string value)
    : result radial_opts :=
  plotfunc ← get_eval w actiondict "plotfunc";
  title ← getitem actiondict "title";
  cmap ← getitem actiondict "cmap";
  cbar_inc ← getitem actiondict "cbar";
  savefile ← getitem actiondict "savefile";
  dpi ← getitem actiondict "dpi";
  figsize ← getitem actiondict "figsize";
  NR ← getitem actiondict "NR";
  NTheta ← getitem actiondict "NTheta";
  LR ← getitem actiondict "LR";
  vmin ← getitem actiondict "vmin";
  vmax ← getitem actiondict "vmax";
  xcenter ← getitem actiondict "xc";
  ycenter ← getitem actiondict "yc";
  mret (RadialOpts plotfunc title cmap cbar_inc savefile dpi figsize
          NR NTheta LR vmin vmax xcenter ycenter).

(** [LTheta = 2 * np.pi] *)
Definition LTheta : Q := 2 * np_pi.

(** [np.linspace(0, LTheta, NTheta+1)[0:-1]] for an integer [NTheta] *)
Definition theta_grid (NTheta : Z) : result (list Q) :=
  y ← linspace 0 LTheta (NTheta + 1);
  mret (removelast y).

(** lines 518-520: the radial and the angular grid, for a scalar [LR]
    ([linspace] reads [num] before [start] and [stop]) *)
Definition polar_grids (o : radial_opts) : result (list Q * list Q) :=
  nr ← as_index (ro_NR o);
  _ ← (if (nr <? 0)%Z
       then Raise (ValueError "Number of samples must be non-negative")
       else Ok tt);
  lr ← as_number (ro_LR o);
  r ← linspace 0 lr nr;
  ntheta ← as_index (ro_NTheta o);
  theta ← theta_grid ntheta;
  mret (r, theta).

(** lines 548-554: save the frame; the template gets no [iter] *)
Definition plot_radial_save (w : World) (p : parent) (o : radial_opts)
    (time : value) : W io unit :=
  n ← lift (py_len (ro_savefile o));
  if (0 <? n)%nat then
    savefname ← lift (py_format (formatter w) (ro_savefile o)
                        (frame_kwargs_noiter time (iplane p)));
    _ ← emit (Stdout ("Saving " +:+ savefname));
    _ ← make_parent_dir savefname;
    emit (Savefig savefname)
  else mret tt.

Definition plot_radial_frame (w : World) (p : parent) (o : radial_opts)
    (r theta : list Q) (iplot : nat) (i : value) : W io unit :=
  _ ← lift (getitem (db p) "y");
  _ ← lift (getitem (db p) "z");
  time ← lift (parent_time p iplot);
  _ ← lift (pcolormesh w p o r theta i time);
  _ ← emit (PolarFrame i time);
  plot_radial_save w p o time.

Definition plot_radial_execute (w : World) (p : parent)
    (actiondict : gmap string value) : W io unit :=
  _ ← emit (Stdout "Executing plot_radial");
  o ← lift (plot_radial_options w actiondict);
  '(r, theta) ← lift (polar_grids o);
  its ← lift (py_iter (iters p));
  for_enumerate_from 0 (plot_radial_frame w p o r theta) its.

Definition plot_radial (w : World) : action :=
  Action "plot_radial" false
    (action_init "plot_radial" plot_radial_actiondefs) (plot_radial_execute w).

(** ** The plugin: [__init__] and [execute] *)

Definition inputdefs : list optdef := [
  OptDef "name" true (VStr "");
  OptDef "ncfile" true (VStr "");
  OptDef "iters" false (VList []);
  OptDef "times" false VNone;
  OptDef "trange" false VNone;
  OptDef "xaxis" true (VStr "x");
  OptDef "yaxis" true (VStr "y");
  OptDef "iplane" true (VInt 0);
  OptDef "group" false VNone;
  OptDef "varnames" false
    (VList [VStr "velocityx"; VStr "velocityy"; VStr "velocityz"]);
  OptDef "savepklfile" false (VStr "")
].

(** [actionlist], in registration order *)
Definition actionlist (w : World) : list action :=
  [plot w; interpolate w; animate w; makegif w; plot_radial w].

(** [__init__]: [self.yamldictlist], one merged dictionary for each plane *)
Definition plugin_init (inputs : value) : result (list (gmap string value)) :=
  let inputlist := match inputs with VList l => l | _ => [inputs] end in
  mapM (λ indict, d ← as_dict indict; mergedicts d inputdefs) inputlist.

(** ['a1' in [xaxis, yaxis] or 'a2' in ... or 'a3' in ...] *)
Definition uses_plane_axes (xaxis yaxis : value) : bool :=
  (eq_str xaxis "a1" || eq_str yaxis "a1") ||
  (eq_str xaxis "a2" || eq_str yaxis "a2") ||
  (eq_str xaxis "a3" || eq_str yaxis "a3").

(** lines 135-166: read the plane dictionary, load the dataset, resolve the
    iteration list and write the pickle file *)
Definition load_plane (w : World) (verbose : bool)
    (plane : gmap string value) : W io parent :=
  iters ← lift (getitem plane "iters");
  ncfile ← lift (getitem plane "ncfile");
  xaxis ← lift (getitem plane "xaxis");
  yaxis ← lift (getitem plane "yaxis");
  savepklfile ← lift (getitem plane "savepklfile");
  times ← lift (getitem plane "times");
  trange ← lift (getitem plane "trange");
  group ← lift (getitem plane "group");
  varnames ← lift (getitem plane "varnames");
  iplane ← lift (getitem plane "iplane");
  db ← lift (getPlaneXR w ncfile iters varnames group verbose trange times);
  db ← (if uses_plane_axes xaxis yaxis
        then lift (compute_axis1axis2_coords w db) else mret db);
  iters ← (if negb (eq_str trange "None")
           then lift (getitem db "timesteps") else mret iters);
  n ← lift (py_len savepklfile);
  _ ← (if (0 <? n)%nat then emit (PickleDump savepklfile db) else mret tt);
  mret (Parent xaxis yaxis times trange iplane db iters).

(** [action.actionname in self.yamldictlist[planeiter].keys()] *)
Definition has_key (plane : gmap string value) (k : string) : bool :=
  bool_decide (is_Some (plane !! k)).

(** lines 170-177: one registered action for one plane *)
Definition dispatch (planeiter : nat) (p : parent)
    (plane : gmap string value) (a : action) : W event unit :=
  _ ← (if required a && negb (has_key plane (actionname a))
       then raise (ValueError
                     ("Required action " +:+ actionname a +:+ " not present"))
       else mret tt);
  if has_key plane (actionname a) then
    inputs ← lift (getitem plane (actionname a));
    _ ← emit (Construct planeiter (actionname a));
    actiondict ← liftIO (init a p inputs);
    _ ← emit (Execute planeiter (actionname a));
    liftIO (run a p actiondict)
  else mret tt.

(** the body of the loop over [enumerate(self.yamldictlist)] *)
Definition execute_plane (w : World) (actions : list action) (verbose : bool)
    (planeiter : nat) (plane : gmap string value) : W event unit :=
  p ← liftIO (load_plane w verbose plane);
  for_each (dispatch planeiter p plane) actions.

(** [execute] over a registry [actions] *)
Definition execute_with (w : World) (actions : list action) (verbose : bool)
    (yamldictlist : list (gmap string value)) : W event unit :=
  _ ← (if verbose then emit (IO (Stdout ("Running " +:+ name))) else mret tt);
  for_enumerate_from 0 (execute_plane w actions verbose) yamldictlist.

Definition execute (w : World) (verbose : bool)
    (yamldictlist : list (gmap string value)) : W event unit :=
  execute_with w (actionlist w) verbose yamldictlist.

(** ** A small concrete world

    Three saved time steps, images that can be read except
    [missing.png], and an evaluator that knows a few expressions. *)

Definition demo_db : gmap string value :=
  list_to_map [
    ("times", VList [VFloat 456; VFloat 457; VFloat 458]);
    ("timesteps", VList [VInt 0; VInt 10; VInt 20]);
    ("y", VList []);
    ("z", VList [])
  ].

Definition starts_with (pre s : string) : bool :=
  String.eqb (String.substring 0 (String.length pre) s) pre.

Definition demo_evaluator (src : string) : result value :=
  if starts_with "lambda" src then Ok (VFun src)
  else if String.eqb src "np.linspace(0, 12, 121)" then Ok (VFun src)
  else if String.eqb src "[1.5, 2.5]" then
    Ok (VList [VFloat (3 # 2); VFloat (5 # 2)])
  else Raise (OtherError "SyntaxError").

(** integers in decimal, floats with one decimal digit, strings as they
    are; no accessor, conversion or format spec *)
Definition demo_formatter : field_formatter := λ _ v accessors conv spec,
  if negb (String.eqb accessors "" && String.eqb spec "") then
    Raise (ValueError "unsupported")
  else match conv, v with
       | None, VInt z => Ok (pretty z)
       | None, VFloat q =>
           let tenths := (Qnum (q * 10) / Z.pos (Qden (q * 10)))%Z in
           Ok (pretty (tenths / 10)%Z +:+ "." +:+ pretty (tenths mod 10)%Z)
       | None, VStr s => Ok s
       | _, _ => Raise (ValueError "unsupported")
       end.

Definition demo_imread (f : string) : option image :=
  if String.eqb f "missing.png" then None else Some (Image 48 64 3 f).

Definition demo_world : World := {|
  hasimageio := true;
  getPlaneXR := λ _ _ _ _ _ _ _, Ok demo_db;
  compute_axis1axis2_coords := λ d, Ok d;
  evaluator := demo_evaluator;
  formatter := demo_formatter;
  contourf := λ _ _ _, Ok [0; 6; 12]%Q;
  decorate := λ _ _ _ _, Ok tt;
  imread := demo_imread;
  cvtColor := λ img, img;
  pcolormesh := λ _ _ _ _ _ _, Ok tt;
  interpolate_required := false;
  interpolate_init := λ _ _, ([], Ok ∅);
  interpolate_execute := λ _ _, ([], Ok tt);
|}.

(** a plane dictionary as [__init__] produces it for the given user keys *)
Definition demo_plane (extra : list (string * value)) : gmap string value :=
  match mergedicts
          (list_to_map
             ([("name", VStr "Wake YZ plane"); ("ncfile", VStr "YZslice.nc");
               ("xaxis", VStr "y"); ("yaxis", VStr "z"); ("iplane", VInt 0)]
              ++ extra))
          inputdefs with
  | Ok d => d
  | Raise _ => ∅
  end.

Definition demo_parent : parent :=
  Parent (VStr "y") (VStr "z") VNone VNone (VInt 0) demo_db
    (VList [VInt 0; VInt 10; VInt 20]).

(** an action that every plane must configure, and a registry with it *)
Definition demo_required_action : action :=
  Action "checks" true (λ _ _, ([], Ok ∅)) (λ _ _, ([], Ok tt)).

Definition demo_actions : list action :=
  [plot demo_world; demo_required_action].

(** the merged configuration of an action for the given user keys *)
Definition demo_actiondict (defs : list optdef)
    (user : list (string * value)) : gmap string value :=
  match mergedicts (list_to_map user) defs with
  | Ok d => d
  | Raise _ => ∅
  end.

Definition demo_plot_dict : gmap string value :=
  demo_actiondict plot_actiondefs
    [("savefile", VStr "figs/inst_{iter}_{time}_{iplane}.png");
     ("cbar_nticks", VInt 3)].


(** the options of [plot] with a colorbar, [cbar_nticks] ticks and a
    savefile template, the other options at their defaults *)
Definition demo_plot_opts_of (savefile : string) (cbar_nticks : value)
    : plot_opts :=
  PlotOpts
    (VFun "lambda db,i: np.sqrt(db['velocityx'][i]**2 + db['velocityy'][i]**2)")
    (VStr "") (VFun "np.linspace(0, 12, 121)") (VStr "coolwarm") (VBool true)
    cbar_nticks VNone (VStr "X [m]") (VStr "Y [m]") VNone VNone (VStr savefile)
    (VInt 125) (VList [VInt 12; VInt 3]) (VInt 14) (VStr "")
    (VFun "lambda x: x") (VFun "lambda y: y") VNone VNone (VStr "scaled") VNone.

Definition demo_plot_opts (cbar_nticks : value) : plot_opts :=
  demo_plot_opts_of "" cbar_nticks.

(** [makegif] configured with a template and, when given, a [times] entry *)
Definition demo_gif_dict (times : list (string * value))
    : gmap string value :=
  demo_actiondict makegif_actiondefs
    ([("name", VStr "movies/wake.gif");
      ("imagefilename", VStr "img_{time}.png")] ++ times).

(** [animate] over images that cannot be read *)
Definition demo_animate_dict (imagefilename : string) : gmap string value :=
  demo_actiondict animate_actiondefs
    [("name", VStr "movies/wake.mp4"); ("imagefilename", VStr imagefilename)].

(** [makegif] over the same images *)
Definition demo_gif_dict_of (imagefilename : string) : gmap string value :=
  demo_actiondict makegif_actiondefs
    [("name", VStr "movies/wake.gif"); ("imagefilename", VStr imagefilename)].

(** [plot_radial] with a centre and the given savefile template *)
Definition demo_radial_dict (savefile : string) : gmap string value :=
  demo_actiondict plot_radial_actiondefs
    [("LR", VFloat 89); ("NR", VInt 8); ("NTheta", VInt 8);
     ("xc", VInt 375); ("yc", VInt 90); ("savefile", VStr savefile)].


(** a parent without iterations *)
Definition demo_parent_empty : parent :=
  Parent (VStr "y") (VStr "z") VNone VNone (VInt 0) demo_db (VList []).


(** ** Views of the event log *)

(** the files written by [plt.savefig], in order *)
Definition saved_files (log : list io) : list string :=
  omap (λ e, match e with Savefig f => Some f | _ => None end) log.


(** the frames rendered by [plot_radial], in order *)
Definition polar_frames (log : list io) : list (value * value) :=
  omap (λ e, match e with PolarFrame i t => Some (i, t) | _ => None end) log.


(** the directories passed to [os.makedirs], in order *)
Definition dirs_made (log : list io) : list string :=
  omap (λ e, match e with Makedirs d => Some d | _ => None end) log.

(** text without [{] and [}] *)
Fixpoint no_brace (s : string) : bool :=
  match s with
  | EmptyString => true
  | String c r => negb (is_char c "{") && negb (is_char c "}") && no_brace r
  end.

(** the literal pieces of a text *)
Fixpoint lits (s : string) : list piece :=
  match s with
  | EmptyString => []
  | String c r => PLit c :: lits r
  end.

(** a field name that is a plain keyword: none of the characters that
    end a field name or start an accessor *)
Fixpoint plain_name (s : string) : bool :=
  match s with
  | EmptyString => true
  | String c r =>
      negb (is_char c "{" || is_char c "}" || is_char c "[" ||
            is_char c ":" || is_char c "!" || is_char c ".")
      && plain_name r
  end.

(** text without [/] *)
Fixpoint no_slash (s : string) : bool :=
  match s with
  | EmptyString => true
  | String c r => negb (is_char c "/") && no_slash r
  end.

(** whether the last character of [s] is [/] *)
Fixpoint ends_with_slash (s : string) : bool :=
  match s with
  | EmptyString => false
  | String c EmptyString => is_char c "/"
  | String _ r => ends_with_slash r
  end.

(** * Properties *)

(** ** The effect monads *)

Section monads.
Context {E A B : Type}.
Implicit Types (m : W E A) (f : A → W E B) (r : result A).

Lemma W_bind_Ok m f l b :
  m ≫= f = (l, Ok b) →
  ∃ l1 a l2, m = (l1, Ok a) ∧ f a = (l2, Ok b) ∧ l = l1 ++ l2.
Proof.
  destruct m as [l1 [a|e]]; unfold mbind, W_bind; [|discriminate].
  destruct (f a) as [l2 r2] eqn:Hf. intros [= <- ->]. eauto 7.
Qed.

Lemma W_bind_ok_eq m f l1 a :
  m = (l1, Ok a) → m ≫= f = (l1 ++ (f a).1, (f a).2).
Proof. intros ->. unfold mbind, W_bind. by destruct (f a). Qed.

Lemma W_bind_raise_eq m f l1 e :
  m = (l1, Raise e) → m ≫= f = (l1, Raise e).
Proof. by intros ->. Qed.

Lemma lift_bind a f : lift (Ok a) ≫= f = f a.
Proof. unfold lift, mbind, W_bind. by destruct (f a). Qed.

Lemma lift_Ok r l a : lift (E:=E) r = (l, Ok a) → r = Ok a ∧ l = [].
Proof. unfold lift. by intros [= <- ->]. Qed.

Lemma result_bind_Ok r (g : A → result B) b :
  r ≫= g = Ok b → ∃ a, r = Ok a ∧ g a = Ok b.
Proof. destruct r; [eauto | discriminate]. Qed.
End monads.

Lemma liftIO_Ok {A} (m : W io A) l a :
  liftIO m = (l, Ok a) → ∃ l0, m = (l0, Ok a) ∧ l = IO <$> l0.
Proof. destruct m as [l0 r]. intros [= <- ->]. eauto. Qed.

(** Take the first bind of a run that returned apart. *)
Ltac bind_ok H :=
  let l1 := fresh "l" in
  let v := fresh "v" in
  let l2 := fresh "l" in
  let H1 := fresh "Hstep" in
  let Hl := fresh "Hlog" in
  apply W_bind_Ok in H as (l1 & v & l2 & H1 & H & Hl);
  try (apply lift_Ok in H1 as [H1 ->]).

Ltac result_ok H :=
  let v := fresh "v" in
  let H1 := fresh "Hget" in
  apply result_bind_Ok in H as (v & H1 & H).

(** ** Resolution of the iteration list *)

Lemma getitem_Ok (d : gmap string value) k v :
  getitem d k = Ok v ↔ d !! k = Some v.
Proof. unfold getitem. destruct (d !! k); split; congruence. Qed.

Lemma eq_str_true v s : eq_str v s = true ↔ v = VStr s.
Proof.
  destruct v; simpl; try (split; [discriminate | congruence]).
  rewrite String.eqb_eq. split; congruence.
Qed.

(** C9.  When [load_plane] returns the plugin state [p] that every action of
    the plane receives, the iteration list [iters p] is the data set's
    ['timesteps'] entry whenever the plane's ['trange'] is not the string
    ['None'] (so also for the default [None] and for a list), and it is
    the plane's own ['iters'] entry only when ['trange'] is that string. *)
Theorem iters_replaced_by_timesteps (w : World) (verbose : bool)
    (plane : gmap string value) (tr : value) (log : list io) (p : parent) :
  plane !! "trange" = Some tr →
  load_plane w verbose plane = (log, Ok p) →
  trange p = tr ∧
  (tr ≠ VStr "None" → db p !! "timesteps" = Some (iters p)) ∧
  (tr = VStr "None" → plane !! "iters" = Some (iters p)) ∧
  (∀ actions planeiter,
     execute_plane w actions verbose planeiter plane =
       let '(l, r) := for_each (dispatch planeiter p plane) actions in
       ((IO <$> log) ++ l, r)).
Proof.
  intros Htr Hload.
  assert (Hrun : ∀ actions planeiter,
     execute_plane w actions verbose planeiter plane =
       let '(l, r) := for_each (dispatch planeiter p plane) actions in
       ((IO <$> log) ++ l, r)).
  { intros. unfold execute_plane. rewrite Hload. simpl.
    unfold mbind, W_bind. done. }
  unfold load_plane in Hload.
  do 11 bind_ok Hload.
  bind_ok Hload. bind_ok Hload. bind_ok Hload. bind_ok Hload.
  injection Hload as _ <-. simpl.
  apply getitem_Ok in Hstep5. rewrite Htr in Hstep5. injection Hstep5 as <-.
  split; [done|]. split; [|split; [|done]].
  - intros Hne. destruct (eq_str tr "None") eqn:Heq.
    { apply eq_str_true in Heq. done. }
    simpl in Hstep11. apply lift_Ok in Hstep11 as [Hts _].
    apply getitem_Ok in Hts. done.
  - intros ->. simpl in Hstep11. injection Hstep11 as _ <-.
    by apply getitem_Ok in Hstep.
Qed.

Lemma iters_replaced_by_timesteps_witness :
  trange demo_parent = VNone ∧
  (VNone ≠ VStr "None" → db demo_parent !! "timesteps" = Some (iters demo_parent)) ∧
  (VNone = VStr "None" →
     demo_plane [("iters", VList [VInt 5])] !! "iters" = Some (iters demo_parent)) ∧
  (∀ actions planeiter,
     execute_plane demo_world actions false planeiter
         (demo_plane [("iters", VList [VInt 5])]) =
       let '(l, r) := for_each (dispatch planeiter demo_parent
                                  (demo_plane [("iters", VList [VInt 5])]))
                        actions in
       ((IO <$> []) ++ l, r)).
Proof.
  apply (iters_replaced_by_timesteps demo_world false
           (demo_plane [("iters", VList [VInt 5])]) VNone [] demo_parent);
    vm_compute; reflexivity.
Defined.

(** ** Loops *)

Section loops.
Context {E A : Type}.
Implicit Types (body : nat → A → W E unit) (xs : list A).

Lemma W_bind_log {B C} (m : W E B) (f : B → W E C) :
  (m ≫= f).1 = m.1 ++ match m.2 with Ok a => (f a).1 | Raise _ => [] end.
Proof.
  destruct m as [l [a|e]]; unfold mbind, W_bind; simpl.
  - by destruct (f a).
  - by rewrite app_nil_r.
Qed.


(** an event of the loop is an event of one of its iterations *)
Lemma for_enumerate_from_log start body xs x :
  x ∈ (for_enumerate_from start body xs).1 →
  ∃ j y, xs !! j = Some y ∧ x ∈ (body (start + j) y).1.
Proof.
  revert start. induction xs as [|y xs IH]; intros start; simpl.
  - intros H. by apply elem_of_nil in H.
  - rewrite W_bind_log. intros [H|H]%elem_of_app.
    + exists 0, y. by rewrite Nat.add_0_r.
    + destruct ((body start y).2) as [[]|]; [|by apply elem_of_nil in H].
      apply IH in H as (j & z & Hj & Hx). exists (S j), z.
      by rewrite Nat.add_succ_r.
Qed.



End loops.

(** ** The dispatcher *)

Section dispatcher.
Context (w : World) (actions : list action) (verbose : bool).




Lemma call_not_IO (l : list io) (c : event) :
  (∀ e, c ≠ IO e) → c ∉ IO <$> l.
Proof. intros Hc (e & -> & _)%list_elem_of_fmap. by eapply Hc. Qed.

(** the dispatcher constructs and executes an action only under its key *)
Lemma dispatch_calls planeiter p plane a c k n :
  c = Construct k n ∨ c = Execute k n →
  c ∈ (dispatch planeiter p plane a).1 →
  k = planeiter ∧ n = actionname a ∧ is_Some (plane !! n).
Proof.
  intros Hc. assert (Hio : ∀ e, c ≠ IO e) by (by destruct Hc as [-> | ->]).
  unfold dispatch. rewrite W_bind_log.
  destruct (required a && negb (has_key plane (actionname a))); simpl.
  { intros H. by apply elem_of_nil in H. }
  unfold has_key. case_bool_decide as Hkey; simpl.
  2:{ intros H. by apply elem_of_nil in H. }
  destruct Hkey as [inputs Hkey]. unfold getitem. rewrite Hkey. simpl.
  destruct (init a p inputs) as [l1 [actiondict|e]]; simpl.
  - destruct (run a p actiondict) as [l2 r2]; simpl.
    rewrite !elem_of_cons, !elem_of_app, !elem_of_cons.
    intros [H|[H|[H|H]]]; try (by apply call_not_IO in H); subst c;
      destruct Hc as [Hc|Hc]; try discriminate Hc;
      injection Hc as ? ?; subst; eauto.
  - rewrite !elem_of_cons.
    intros [H|H]; try (by apply call_not_IO in H); subst c;
      destruct Hc as [Hc|Hc]; try discriminate Hc;
      injection Hc as ? ?; subst; eauto.
Qed.


Lemma liftIO_log {A} (m : W io A) : (liftIO m).1 = IO <$> m.1.
Proof. by destruct m. Qed.

Lemma liftIO_outcome {A} (m : W io A) : (liftIO m).2 = m.2.
Proof. by destruct m. Qed.

Lemma execute_plane_calls planeiter plane c k n :
  c = Construct k n ∨ c = Execute k n →
  c ∈ (execute_plane w actions verbose planeiter plane).1 →
  k = planeiter ∧ is_Some (plane !! n).
Proof.
  intros Hc. assert (Hio : ∀ e, c ≠ IO e) by (by destruct Hc as [-> | ->]).
  unfold execute_plane. rewrite W_bind_log, liftIO_log, liftIO_outcome.
  intros [H|H]%elem_of_app; [by apply call_not_IO in H|].
  destruct ((load_plane w verbose plane).2) as [p|];
    [|by apply elem_of_nil in H].
  apply for_enumerate_from_log in H as (j & a & _ & H).
  by destruct (dispatch_calls _ _ _ _ _ _ _ Hc H) as (-> & -> & Hkey).
Qed.



End dispatcher.


(** a run that returns: the plane configures [plot] and the required
    action, and both are constructed and executed, in registration order *)
Example execute_runs_present_actions_demo :
  execute_with demo_world demo_actions false
    [demo_plane [("plot", VDict ∅); ("checks", VDict ∅)]] =
  ([Construct 0 "plot";
    IO (Stdout "Initialized plot inside instantaneousplanes");
    Execute 0 "plot";
    IO (Stdout "Executing plot");
    IO (Colorbar VNone); IO (Colorbar VNone); IO (Colorbar VNone);
    Construct 0 "checks"; Execute 0 "checks"],
   Ok tt).
Proof. vm_compute; reflexivity. Qed.

(** the same plane without the required action: the run stops there, after
    [plot] has run *)
Example execute_stops_at_missing_required_demo :
  (execute_with demo_world demo_actions false
     [demo_plane [("plot", VDict ∅)]]).2 =
  Raise (ValueError "Required action checks not present").
Proof. vm_compute; reflexivity. Qed.

(** ** The [plot] action: saved files *)

Section plot.
Context (w : World) (p : parent).

Lemma saved_files_app l1 l2 :
  saved_files (l1 ++ l2) = saved_files l1 ++ saved_files l2.
Proof. apply omap_app. Qed.

Lemma plot_options_savefile actiondict o :
  plot_options w actiondict = Ok o →
  actiondict !! "savefile" = Some (po_savefile o).
Proof.
  unfold plot_options. intros H. do 23 result_ok H.
  injection H as <-. simpl. by apply getitem_Ok.
Qed.

(** saving with a non-empty template: format, create the directory, save *)
Lemma plot_save_eq o template time i :
  po_savefile o = VStr template → template ≠ "" →
  plot_save w p o time i =
    match str_format (formatter w) template
            (frame_kwargs time (iplane p) i) with
    | Ok savefname =>
        ([Makedirs ((os_path_split savefname).1 +:+ "/"); Savefig savefname],
         Ok tt)
    | Raise e => ([], Raise e)
    end.
Proof.
  intros Hs Hne. unfold plot_save. rewrite Hs. simpl.
  destruct template as [|c template]; [done|]. simpl.
  by destruct (str_format _ _ _).
Qed.

Lemma plot_colorbar_saves_nothing o levels :
  saved_files (plot_colorbar o levels).1 = [].
Proof.
  unfold plot_colorbar. destruct (truthy _); [|done].
  destruct (negb _); [|done]. simpl.
  by destruct (colorbar_ticks _ _).
Qed.





End plot.


(** the files of the run above *)
Example plot_saved_files_demo :
  saved_files (plot_execute demo_world demo_parent demo_plot_dict).1 =
    ["figs/inst_0_456.0_0.png"; "figs/inst_10_457.0_0.png";
     "figs/inst_20_458.0_0.png"].
Proof. vm_compute; reflexivity. Qed.

(** ** [linspace] *)

Section linspace.
Implicit Types (y : list Q) (a b step : Q) (num : Z).









End linspace.

(** ** The polar grid of [plot_radial] *)

Section polar_grid.
Context (n : nat) (L : Q).
Hypothesis n_pos : 0 < n.
Hypothesis L_pos : (0 < L)%Q.

Let N : Q := inject_Z (Z.of_nat n).
Let step : Q := (L / N)%Q.







End polar_grid.






(** ** Colorbar ticks *)


Lemma plot_colorbar_ticks (o : plot_opts) (levels : list Q) (a b : Q) (k : Z) :
  truthy (po_cbar_inc o) = true →
  po_cbar_nticks o = VInt k →
  first_level levels = Ok a →
  last_level levels = Ok b →
  plot_colorbar o levels =
    match linspace a b k with
    | Ok ticks => ([Colorbar (po_cbar_label o); SetTicks ticks], Ok tt)
    | Raise e => ([Colorbar (po_cbar_label o)], Raise e)
    end.
Proof.
  intros Hc Hk Ha Hb. unfold plot_colorbar, colorbar_ticks.
  rewrite Hc, Hk, Ha, Hb. simpl. by destruct (linspace a b k).
Qed.




(** ** [makegif]: the time override *)

Section enumerate.
Context {A B : Type}.
Implicit Types (body : nat → A → result B) (xs : list A) (ys : list B).

(** a comprehension that returns has one result for each item *)
Lemma enumerate_from_Ok start body xs ys :
  enumerate_from start body xs = Ok ys →
  length ys = length xs ∧
  ∀ k x, xs !! k = Some x →
    ∃ y, body (start + k) x = Ok y ∧ ys !! k = Some y.
Proof.
  revert start ys. induction xs as [|x0 xs IH]; intros start ys; simpl.
  - intros [= <-]. done.
  - intros H. result_ok H. result_ok H. injection H as <-.
    destruct (IH _ _ Hget0) as [Hlen Hrest]. simpl. split; [by rewrite Hlen|].
    intros [|k] x; simpl.
    + intros [= <-]. rewrite Nat.add_0_r. eauto.
    + intros Hk. rewrite Nat.add_succ_r. by apply Hrest.
Qed.

Lemma enumerate_from_ext start body body' xs :
  (∀ k x, body k x = body' k x) →
  enumerate_from start body xs = enumerate_from start body' xs.
Proof.
  intros Hext. revert start. induction xs as [|x xs IH]; intros start; simpl.
  - done.
  - by rewrite Hext, IH.
Qed.
End enumerate.

(** formatting the times of a list, position by position over
    [range(len(times))], is formatting each entry in turn *)
Lemma enumerate_range_times {B} (f : value → result B) (pre ts : list value) :
  enumerate_from (length pre)
    (λ iplot (_ : value), time ← py_index (VList (pre ++ ts)) iplot; f time)
    ((λ k, VInt (Z.of_nat k)) <$> seq (length pre) (length ts))
  = mapM f ts.
Proof.
  revert pre. induction ts as [|t ts IH]; intros pre; simpl; [done|].
  rewrite list_lookup_middle by done. simpl.
  specialize (IH (pre ++ [t])). rewrite length_app, Nat.add_1_r in IH.
  rewrite <- app_assoc in IH. simpl in IH.
  destruct (f t) as [y|e]; simpl; [|done].
  change (list_fmap nat value ?g ?l) with (g <$> l). by rewrite IH.
Qed.





(** the names of that run: the parent's three times *)
Example makegif_default_names_demo :
  makegif_images demo_world demo_parent (demo_gif_dict [])
      (VStr "img_{time}.png") =
    Ok ["img_456.0.png"; "img_457.0.png"; "img_458.0.png"].
Proof. vm_compute; reflexivity. Qed.

(** C8, as amended.  When ['times'] is source text whose evaluation yields
    a list, [makegif] builds one image name for each entry of that list,
    the template formatted with the entry as [time] and the plane index,
    whatever the parent's iterations and times are. *)
Theorem makegif_evaluated_times_override
    (w : World) (p : parent) (actiondict : gmap string value)
    (src : string) (ts : list value) (imagefilename : value) :
  actiondict !! "times" = Some (VStr src) →
  evaluator w src = Ok (VList ts) →
  makegif_images w p actiondict imagefilename =
    mapM (λ time, py_format (formatter w) imagefilename
                    [("time", time); ("iplane", iplane p)]) ts.
Proof.
  intros Hkey Heval.
  assert (makegif_times w actiondict = Some (VList ts)) as Hsome.
  { unfold makegif_times, get_eval, getitem. rewrite Hkey. simpl.
    by rewrite Heval. }
  unfold makegif_images. rewrite Hsome. simpl.
  apply (enumerate_range_times
           (λ time, py_format (formatter w) imagefilename
                      (frame_kwargs_noiter time (iplane p))) [] ts).
Qed.

Lemma makegif_evaluated_times_override_witness :
  makegif_images demo_world demo_parent
      (demo_gif_dict [("times", VStr "[1.5, 2.5]")]) (VStr "img_{time}.png") =
    mapM (λ time, py_format (formatter demo_world) (VStr "img_{time}.png")
                    [("time", time); ("iplane", iplane demo_parent)])
         [VFloat (3 # 2); VFloat (5 # 2)].
Proof.
  apply (makegif_evaluated_times_override demo_world demo_parent
           (demo_gif_dict [("times", VStr "[1.5, 2.5]")]) "[1.5, 2.5]").
  - vm_compute; reflexivity.
  - reflexivity.
Defined.

(** C8 as stated fails for a list given as a list: [eval] of a list raises,
    the override is dropped, and the frames are the parent's three times
    instead of the two entries. *)
Lemma makegif_list_valued_times_ignored :
  makegif_images demo_world demo_parent
      (demo_gif_dict [("times", VList [VFloat (3 # 2); VFloat (5 # 2)])])
      (VStr "img_{time}.png")
    = Ok ["img_456.0.png"; "img_457.0.png"; "img_458.0.png"] ∧
  mapM (λ time, py_format (formatter demo_world) (VStr "img_{time}.png")
                  [("time", time); ("iplane", iplane demo_parent)])
       [VFloat (3 # 2); VFloat (5 # 2)]
    = Ok ["img_1.5.png"; "img_2.5.png"].
Proof. split; vm_compute; reflexivity. Qed.

(** ** Unreadable frames *)

(** [makegif] keeps the frames that could be read, in order *)
Lemma read_frames_skips_unreadable (w : World) (images : list string) :
  read_frames w images = cvtColor w <$> omap (imread w) images.
Proof.
  induction images as [|f images IH]; simpl; [done|].
  destruct (imread w f); simpl; by rewrite IH.
Qed.

(** [animate] has no such guard: an unreadable first frame stops it *)
Lemma animate_first_frame_unreadable (w : World) (p : parent)
    (actiondict : gmap string value) (video_name fps imagefilename : value)
    (dir file f : string) (images : list string) :
  actiondict !! "name" = Some video_name →
  py_path_split video_name = Ok (dir, file) →
  actiondict !! "fps" = Some fps →
  actiondict !! "imagefilename" = Some imagefilename →
  animate_images w p imagefilename = Ok (f :: images) →
  imread w f = None →
  animate_execute w p actiondict =
    ([Stdout "Executing animate"; Makedirs (dir +:+ "/")], Raise AttributeError).
Proof.
  intros Hn Hsplit Hfps Himg Himages Hread. unfold animate_execute, getitem.
  rewrite Hn, Hfps, Himg. simpl. rewrite Hsplit. simpl.
  rewrite Himages. simpl. unfold read_shape. by rewrite Hread.
Qed.

(** C6, the failing input.  With image names that cannot be read,
    [animate] raises on [frame.shape] of the first frame before any video
    is written, while [makegif] on the same names skips them and still
    writes its (empty) animation. *)
Theorem unreadable_frame_animate_raises_makegif_skips :
  animate_execute demo_world demo_parent (demo_animate_dict "missing.png") =
    ([Stdout "Executing animate"; Makedirs "movies/"], Raise AttributeError) ∧
  makegif_execute demo_world demo_parent (demo_gif_dict_of "missing.png") =
    ([Stdout "Executing makegif"; Makedirs "movies/";
      Mimsave (VStr "movies/wake.gif") [] (VInt 1)], Ok tt).
Proof. split; vm_compute; reflexivity. Qed.

(** ** Placeholders of the file-name templates *)

(** C7, the failing input.  A template with [{iter}] is formatted by [plot]
    and [animate], which pass [iter]; [plot_radial] and [makegif] do not
    pass it and raise a key error on the same placeholder. *)
Theorem iter_placeholder_plot_radial_makegif_raise :
  (plot_radial_execute demo_world demo_parent
     (demo_radial_dict "radial_{iter}.png")).2 = Raise (KeyError "iter") ∧
  (makegif_execute demo_world demo_parent
     (demo_gif_dict_of "img_{iter}.png")).2 = Raise (KeyError "iter") ∧
  saved_files
    (plot_execute demo_world demo_parent
       (demo_actiondict plot_actiondefs
          [("savefile", VStr "img_{iter}.png")])).1
    = ["img_0.png"; "img_10.png"; "img_20.png"] ∧
  animate_images demo_world demo_parent (VStr "img_{iter}.png")
    = Ok ["img_0.png"; "img_10.png"; "img_20.png"].
Proof. repeat split; vm_compute; reflexivity. Qed.

(** ** [mergedicts] and the centre of [plot_radial] *)

Section mergedicts.
Implicit Types (inputs d : gmap string value) (defs : list optdef).



End mergedicts.




(** * Further properties of the dispatcher *)

Section run_order.
Context {E A : Type}.
Implicit Types (body : nat → A → W E unit) (xs : list A).

(** an event of the loop comes from an iteration before which every
    iteration returned *)
Lemma for_enumerate_from_log_reached start body xs x :
  x ∈ (for_enumerate_from start body xs).1 →
  ∃ j y, xs !! j = Some y ∧ x ∈ (body (start + j) y).1 ∧
    ∀ i z, i < j → xs !! i = Some z → (body (start + i) z).2 = Ok tt.
Proof.
  revert start. induction xs as [|y xs IH]; intros start; simpl.
  - intros H. by apply elem_of_nil in H.
  - rewrite W_bind_log. intros [H|H]%elem_of_app.
    + exists 0, y. rewrite Nat.add_0_r. split; [done|]. split; [done|]. lia.
    + destruct ((body start y).2) as [[]|] eqn:Hy; [|by apply elem_of_nil in H].
      apply IH in H as (j & z & Hj & Hx & Hbefore). exists (S j), z.
      rewrite Nat.add_succ_r. split; [done|]. split; [done|].
      intros [|i] z' Hi; simpl.
      * intros [= <-]. by rewrite Nat.add_0_r.
      * intros Hz. rewrite Nat.add_succ_r. apply Hbefore; [lia|done].
Qed.


End run_order.

Section dispatch_order.
Context (w : World) (actions : list action) (verbose : bool).







(** X2.  Once the plane at position [planeiter] raises, no action of any
    later plane is constructed or executed. *)
Theorem raise_stops_later_planes
    (yamldictlist : list (gmap string value)) (planeiter : nat)
    (plane : gmap string value) (e : exn) (k : nat) (n : string) :
  yamldictlist !! planeiter = Some plane →
  (execute_plane w actions verbose planeiter plane).2 = Raise e →
  planeiter < k →
  (Construct k n ∉ (execute_with w actions verbose yamldictlist).1) ∧
  (Execute k n ∉ (execute_with w actions verbose yamldictlist).1).
Proof.
  intros Hplane Hraise Hlt.
  assert (∀ c, c = Construct k n ∨ c = Execute k n →
               c ∉ (execute_with w actions verbose yamldictlist).1) as Hno.
  { intros c Hc. unfold execute_with. rewrite W_bind_log.
    intros [H|H]%elem_of_app.
    - destruct verbose; simpl in H.
      + apply elem_of_cons in H as [->|H]; [by destruct Hc|].
        by apply elem_of_nil in H.
      + by apply elem_of_nil in H.
    - destruct verbose; simpl in H;
        apply for_enumerate_from_log_reached in H
          as (j & plane' & Hj & Hin & Hbefore); simpl in Hin, Hbefore;
        destruct (execute_plane_calls _ _ _ _ _ _ _ _ Hc Hin) as [-> _];
        specialize (Hbefore planeiter plane Hlt Hplane);
        congruence. }
  split; apply Hno; auto.
Qed.
End dispatch_order.


Lemma raise_stops_later_planes_witness :
  (Construct 1 "plot"
     ∉ (execute_with demo_world demo_actions false
          [demo_plane [("plot", VDict ∅)];
           demo_plane [("plot", VDict ∅); ("checks", VDict ∅)]]).1) ∧
  (Execute 1 "plot"
     ∉ (execute_with demo_world demo_actions false
          [demo_plane [("plot", VDict ∅)];
           demo_plane [("plot", VDict ∅); ("checks", VDict ∅)]]).1).
Proof.
  apply (raise_stops_later_planes demo_world demo_actions false
           [demo_plane [("plot", VDict ∅)];
            demo_plane [("plot", VDict ∅); ("checks", VDict ∅)]]
           0 (demo_plane [("plot", VDict ∅)])
           (ValueError "Required action checks not present")).
  - reflexivity.
  - vm_compute; reflexivity.
  - lia.
Defined.

(** * Further properties of the data set load *)

(** X3.  Loading a plane has at most one effect of its own: when
    ['savepklfile'] is not empty, one pickle dump to that file of the data
    set the actions will read (after the axis conversion, if any); when
    it is empty, nothing. *)
Theorem snapshot_written_once_of_loaded_data
    (w : World) (verbose : bool) (plane : gmap string value)
    (savepklfile : value) (log : list io) (p : parent) :
  plane !! "savepklfile" = Some savepklfile →
  load_plane w verbose plane = (log, Ok p) →
  ∃ n, py_len savepklfile = Ok n ∧
       log = if (0 <? n)%nat then [PickleDump savepklfile (db p)] else [].
Proof.
  intros Hpkl Hload. unfold load_plane in Hload.
  do 11 bind_ok Hload.
  bind_ok Hload. bind_ok Hload. bind_ok Hload. bind_ok Hload.
  injection Hload as <- <-. simpl.
  apply getitem_Ok in Hstep3. rewrite Hpkl in Hstep3. injection Hstep3 as <-.
  exists v12. split; [done|].
  assert (l = []) as ->.
  { destruct (uses_plane_axes v1 v2); [by apply lift_Ok in Hstep10 as [_ ->]|].
    by injection Hstep10 as <- _. }
  assert (l12 = []) as ->.
  { destruct (negb (eq_str v5 "None")); [by apply lift_Ok in Hstep11 as [_ ->]|].
    by injection Hstep11 as <- _. }
  assert (l14 = if (0 <? v12)%nat then [PickleDump savepklfile v10] else [])
    as ->.
  { destruct (0 <? v12)%nat; by injection Hstep13 as <- _. }
  subst. simpl. by rewrite app_nil_r.
Qed.

Lemma snapshot_written_once_of_loaded_data_witness :
  ∃ n, py_len (VStr "plane.pkl") = Ok n ∧
       [PickleDump (VStr "plane.pkl") demo_db] =
         if (0 <? n)%nat then [PickleDump (VStr "plane.pkl") (db demo_parent)]
         else [].
Proof.
  apply (snapshot_written_once_of_loaded_data demo_world false
           (demo_plane [("savepklfile", VStr "plane.pkl")])).
  - vm_compute; reflexivity.
  - vm_compute; reflexivity.
Defined.

(** * Further properties of [str.format] and the file names *)

Section templates.
Context (fmt : field_formatter) (kw : kwargs).

Lemma scan_literal_prefix (pre rest : string) :
  no_brace pre = true →
  scan SText (pre +:+ rest) =
    (lits pre ++ (scan SText rest).1, (scan SText rest).2).
Proof.
  induction pre as [|c pre IH]; intros H.
  - change ("" +:+ rest) with rest. by destruct (scan SText rest).
  - cbn [no_brace] in H. apply andb_prop in H as [H Hpre].
    apply andb_prop in H as [Ho Hc]. apply negb_true_iff in Ho, Hc.
    change (String c pre +:+ rest) with (String c (pre +:+ rest)).
    cbn [scan step]. rewrite Ho, Hc, (IH Hpre). done.
Qed.

Lemma render_literal_prefix (pre : string) (ps : list piece) :
  render fmt kw (lits pre ++ ps) = r ← render fmt kw ps; mret (pre +:+ r).
Proof.
  induction pre as [|c pre IH].
  - change ("" +:+ ?r) with r. simpl. by destruct (render fmt kw ps).
  - cbn [lits app render]. rewrite IH. by destruct (render fmt kw ps).
Qed.

Lemma append_empty_r (s : string) : s +:+ "" = s.
Proof.
  induction s as [|c s IH]; [done|].
  change (String c s +:+ "") with (String c (s +:+ "")). by rewrite IH.
Qed.

(** text without braces is its own format *)
Lemma str_format_no_brace (s : string) :
  no_brace s = true → str_format fmt s kw = Ok s.
Proof.
  intros H. unfold str_format.
  pose proof (scan_literal_prefix s "" H) as Hs.
  rewrite append_empty_r in Hs. rewrite Hs. simpl.
  rewrite render_literal_prefix. simpl. by rewrite append_empty_r.
Qed.

(** a template is formatted piece by piece: a literal prefix stays *)
Lemma str_format_literal_prefix (pre rest : string) :
  no_brace pre = true →
  str_format fmt (pre +:+ rest) kw =
    r ← str_format fmt rest kw; mret (pre +:+ r).
Proof.
  intros H. unfold str_format. rewrite (scan_literal_prefix _ _ H).
  destruct (scan SText rest) as [ps e]. simpl.
  rewrite render_literal_prefix.
  destruct (render fmt kw ps); simpl; [|done]. by destruct e.
Qed.

Lemma append_assoc (s1 s2 s3 : string) :
  (s1 +:+ s2) +:+ s3 = s1 +:+ (s2 +:+ s3).
Proof.
  induction s1 as [|c s1 IH]; [done|].
  change (String c s1 +:+ ?r) with (String c (s1 +:+ r)).
  change (String c (s1 +:+ s2) +:+ s3) with (String c ((s1 +:+ s2) +:+ s3)).
  by rewrite IH.
Qed.

Lemma plain_name_cons c r :
  plain_name (String c r) = true →
  is_char c "{" = false ∧ is_char c "}" = false ∧ is_char c "[" = false ∧
  is_char c ":" = false ∧ is_char c "!" = false ∧ is_char c "." = false ∧
  plain_name r = true.
Proof.
  cbn [plain_name]. intros [H Hr]%andb_prop. apply negb_true_iff in H.
  apply orb_false_elim in H as [H H6]. apply orb_false_elim in H as [H H5].
  apply orb_false_elim in H as [H H4]. apply orb_false_elim in H as [H H3].
  apply orb_false_elim in H as [H1 H2]. done.
Qed.

(** scanning a plain field name up to its closing brace *)
Lemma scan_plain_name (acc name rest : string) :
  plain_name name = true →
  scan (SName acc false) (name +:+ "}" +:+ rest) =
    (PField (acc +:+ name) None "" :: (scan SText rest).1,
     (scan SText rest).2).
Proof.
  revert acc. induction name as [|c name IH]; intros acc H.
  - change ("" +:+ ?r) with r. change ("}" +:+ rest) with (String "}" rest).
    rewrite append_empty_r. cbn. by destruct (scan SText rest).
  - apply plain_name_cons in H as (Ho & Hc & Hb & Hcol & Hbang & _ & Hname).
    change (String c name +:+ ?r) with (String c (name +:+ r)).
    cbn [scan step step_name]. rewrite Ho, Hb, Hc, Hcol, Hbang.
    rewrite (IH _ Hname). unfold snoc. rewrite append_assoc. done.
Qed.

Lemma split_plain_name (name : string) :
  plain_name name = true → split_field_name name = (name, "").
Proof.
  induction name as [|c name IH]; [done|].
  intros H. apply plain_name_cons in H as (_ & _ & Hb & _ & _ & Hdot & Hname).
  cbn [split_field_name]. by rewrite Hdot, Hb, (IH Hname).
Qed.

(** a template that starts with one plain field [{name}]: the field is
    looked up and formatted, then the rest of the template *)
Lemma str_format_plain_field (name rest : string) :
  plain_name name = true → name ≠ "" →
  str_format fmt ("{" +:+ name +:+ "}" +:+ rest) kw =
    s ← render_field fmt kw name None "";
    r ← str_format fmt rest kw;
    mret (s +:+ r).
Proof.
  intros H Hne. destruct name as [|c name]; [done|].
  pose proof (plain_name_cons _ _ H) as (Ho & Hc & Hb & Hcol & Hbang & _ & Hn).
  unfold str_format.
  change ("{" +:+ String c name +:+ "}" +:+ rest)
    with (String "{" (String c (name +:+ "}" +:+ rest))).
  assert (scan SText (String "{" (String c (name +:+ "}" +:+ rest))) =
          scan (SName (String c "") false) (name +:+ "}" +:+ rest)) as ->.
  { cbn [scan]. change (step SText "{") with (@nil piece, Ok SOpen).
    cbn [scan step]. rewrite Ho. unfold step_name.
    rewrite Ho, Hb, Hc, Hcol, Hbang. cbn [app].
    change (snoc "" c) with (String c "").
    by destruct (scan (SName (String c "") false) (name +:+ "}" +:+ rest)). }
  rewrite (scan_plain_name _ _ _ Hn).
  change (String c "" +:+ name) with (String c name).
  destruct (scan SText rest) as [ps e]. cbn [fst snd app render].
  destruct (render_field fmt kw (String c name) None "") as [s|]; [|done].
  cbn. destruct (render fmt kw ps) as [r|]; [|done]. cbn. by destruct e.
Qed.
End templates.

(** * Further properties of [os.path.split] and the directories made *)

Lemma cut_last_slash_no_slash (f : string) :
  no_slash f = true → cut_last_slash f = None.
Proof.
  induction f as [|c f IH]; [done|]. cbn [no_slash cut_last_slash].
  intros [Hc Hf]%andb_prop. apply negb_true_iff in Hc.
  by rewrite (IH Hf), Hc.
Qed.

Lemma cut_last_slash_dir_file (d f : string) :
  no_slash f = true →
  cut_last_slash (d +:+ "/" +:+ f) = Some (d +:+ "/", f).
Proof.
  intros Hf. induction d as [|c d IH].
  - change ("" +:+ ?r) with r. change ("/" +:+ f) with (String "/" f).
    cbn [cut_last_slash]. by rewrite (cut_last_slash_no_slash _ Hf).
  - change (String c d +:+ ?r) with (String c (d +:+ r)).
    cbn [cut_last_slash]. by rewrite IH.
Qed.

Lemma rstrip_trailing_slash (d : string) :
  d ≠ "" → ends_with_slash d = false →
  all_slashes (d +:+ "/") = false ∧ rstrip_slash (d +:+ "/") = d.
Proof.
  induction d as [|c d IH]; [done|]. intros _ Hend.
  change (String c d +:+ "/") with (String c (d +:+ "/")).
  destruct d as [|c' d].
  - cbn in Hend. change ("" +:+ "/") with "/". cbn. by rewrite Hend.
  - destruct IH as [Hall Hstrip]; [done|done|].
    cbn [all_slashes rstrip_slash]. rewrite Hall, andb_false_r.
    by rewrite Hstrip.
Qed.

(** X4.  For a file name without any [/], the directory the actions ask
    [os.makedirs] to create is the root directory [/]. *)
Theorem bare_file_name_makes_root_dir (f : string) :
  no_slash f = true →
  make_parent_dir f = ([Makedirs "/"], Ok tt).
Proof.
  intros Hf. unfold make_parent_dir, os_path_split, emit.
  by rewrite (cut_last_slash_no_slash _ Hf).
Qed.

Lemma bare_file_name_makes_root_dir_witness :
  make_parent_dir "radial_test_456.0.png" = ([Makedirs "/"], Ok tt).
Proof. apply (bare_file_name_makes_root_dir "radial_test_456.0.png"). reflexivity. Defined.

(** X5.  For a path [d/f] whose file part [f] has no [/] and whose
    directory part [d] is not empty and does not end in [/],
    [os.path.split] gives [(d, f)] and the directory created is [d/]. *)
Theorem dir_and_file_split (d f : string) :
  d ≠ "" → ends_with_slash d = false → no_slash f = true →
  os_path_split (d +:+ "/" +:+ f) = (d, f) ∧
  make_parent_dir (d +:+ "/" +:+ f) = ([Makedirs (d +:+ "/")], Ok tt).
Proof.
  intros Hd Hend Hf.
  assert (os_path_split (d +:+ "/" +:+ f) = (d, f)) as Hsplit.
  { unfold os_path_split. rewrite (cut_last_slash_dir_file _ _ Hf).
    destruct (rstrip_trailing_slash d Hd Hend) as [-> ->]. done. }
  split; [done|]. unfold make_parent_dir, emit. by rewrite Hsplit.
Qed.

Lemma dir_and_file_split_witness :
  os_path_split ("inst_figs/run1" +:+ "/" +:+ "inst_test_0.png")
    = ("inst_figs/run1", "inst_test_0.png") ∧
  make_parent_dir ("inst_figs/run1" +:+ "/" +:+ "inst_test_0.png")
    = ([Makedirs ("inst_figs/run1" +:+ "/")], Ok tt).
Proof.
  apply (dir_and_file_split "inst_figs/run1" "inst_test_0.png");
    [discriminate | reflexivity | reflexivity].
Defined.

(** * Further properties of the files [plot] saves *)

Section plot_files.
Context (w : World) (p : parent).

Lemma elem_of_saved_files (log : list io) (f : string) :
  f ∈ saved_files log ↔ Savefig f ∈ log.
Proof.
  unfold saved_files. rewrite list_elem_of_omap. split.
  - intros (e & He & Hf). destruct e; try discriminate Hf. by injection Hf as ->.
  - intros H. by exists (Savefig f).
Qed.

Lemma elem_of_dirs_made (log : list io) (d : string) :
  d ∈ dirs_made log ↔ Makedirs d ∈ log.
Proof.
  unfold dirs_made. rewrite list_elem_of_omap. split.
  - intros (e & He & Hd). destruct e; try discriminate Hd. by injection Hd as ->.
  - intros H. by exists (Makedirs d).
Qed.

(** the events of [plot_save]: a directory and a file, of the formatted
    name, and only for a savefile of positive length *)
Lemma plot_save_events o time i e :
  e ∈ (plot_save w p o time i).1 →
  ∃ n savefname,
    py_len (po_savefile o) = Ok (S n) ∧
    py_format (formatter w) (po_savefile o) (frame_kwargs time (iplane p) i)
      = Ok savefname ∧
    (e = Makedirs ((os_path_split savefname).1 +:+ "/") ∨ e = Savefig savefname).
Proof.
  unfold plot_save. destruct (py_len (po_savefile o)) as [[|n]|]; simpl;
    try (intros H; by apply elem_of_nil in H).
  destruct (py_format _ _ _) as [savefname|]; simpl;
    [|intros H; by apply elem_of_nil in H].
  intros H. exists n, savefname. split; [done|]. split; [done|].
  apply elem_of_cons in H as [->|H]; [by left|].
  apply elem_of_cons in H as [->|H]; [by right|]. by apply elem_of_nil in H.
Qed.

Lemma plot_colorbar_events o levels e :
  e ∈ (plot_colorbar o levels).1 →
  (∃ label, e = Colorbar label) ∨ (∃ ticks, e = SetTicks ticks).
Proof.
  unfold plot_colorbar. destruct (truthy _); [|intros H; by apply elem_of_nil in H].
  destruct (negb _); simpl.
  - destruct (colorbar_ticks _ _); simpl; intros H;
      repeat (apply elem_of_cons in H as [->|H]; [eauto|]);
      by apply elem_of_nil in H.
  - intros H. apply elem_of_cons in H as [->|H]; [eauto|].
    by apply elem_of_nil in H.
Qed.

(** a file or directory event of a frame comes from its [plot_save] *)
Lemma plot_frame_file_event o iplot i e :
  (∃ f, e = Savefig f) ∨ (∃ d, e = Makedirs d) →
  e ∈ (plot_frame w p o iplot i).1 →
  ∃ time, parent_time p iplot = Ok time ∧ e ∈ (plot_save w p o time i).1.
Proof.
  intros He. unfold plot_frame.
  destruct (parent_time p iplot) as [time|];
    [rewrite lift_bind | simpl; intros H; by apply elem_of_nil in H].
  destruct (contourf w p o i) as [levels|];
    [rewrite lift_bind | simpl; intros H; by apply elem_of_nil in H].
  rewrite W_bind_log. intros [H|H]%elem_of_app.
  { apply plot_colorbar_events in H as [[? ->]|[? ->]];
      destruct He as [[? He]|[? He]]; discriminate He. }
  destruct ((plot_colorbar o levels).2) as [[]|]; [|by apply elem_of_nil in H].
  destruct (decorate w p o i time) as [[]|];
    [rewrite lift_bind in H | by apply elem_of_nil in H].
  eauto.
Qed.

(** a file or directory event of [plot.execute] comes from the frame of
    one of the iterations *)
Lemma plot_execute_file_event actiondict e :
  (∃ f, e = Savefig f) ∨ (∃ d, e = Makedirs d) →
  e ∈ (plot_execute w p actiondict).1 →
  ∃ o its k i time,
    plot_options w actiondict = Ok o ∧
    py_iter (iters p) = Ok its ∧ its !! k = Some i ∧
    parent_time p k = Ok time ∧ e ∈ (plot_save w p o time i).1.
Proof.
  intros He. unfold plot_execute. rewrite W_bind_log. cbn [emit fst snd app].
  intros [->|H]%elem_of_cons; [destruct He as [[? He]|[? He]]; discriminate He|].
  destruct (plot_options w actiondict) as [o|];
    [rewrite lift_bind in H | by apply elem_of_nil in H].
  destruct (py_iter (iters p)) as [its|];
    [rewrite lift_bind in H | by apply elem_of_nil in H].
  apply for_enumerate_from_log in H as (k & i & Hk & H). simpl in H.
  apply (plot_frame_file_event _ _ _ _ He) in H as (time & Ht & H).
  by exists o, its, k, i, time.
Qed.

(** each frame saves at most one file *)
Lemma plot_frame_saves_at_most_one o iplot i :
  (length (saved_files (plot_frame w p o iplot i).1) ≤ 1)%nat.
Proof.
  unfold plot_frame.
  destruct (parent_time p iplot) as [time|]; [rewrite lift_bind | simpl; lia].
  destruct (contourf w p o i) as [levels|]; [rewrite lift_bind | simpl; lia].
  rewrite W_bind_log, saved_files_app, plot_colorbar_saves_nothing.
  destruct ((plot_colorbar o levels).2) as [[]|]; [|simpl; lia].
  destruct (decorate w p o i time) as [[]|]; [rewrite lift_bind | simpl; lia].
  unfold plot_save.
  destruct (py_len (po_savefile o)) as [[|n]|]; simpl; try lia.
  destruct (py_format _ _ _); simpl; lia.
Qed.

Lemma plot_loop_saves_at_most_one_each o its start :
  (length (saved_files (for_enumerate_from start (plot_frame w p o) its).1)
     ≤ length its)%nat.
Proof.
  revert start. induction its as [|i its IH]; intros start; simpl; [lia|].
  rewrite W_bind_log, saved_files_app, length_app.
  pose proof (plot_frame_saves_at_most_one o start i).
  destruct ((plot_frame w p o start i).2) as [[]|]; simpl; [|lia].
  specialize (IH (S start)). lia.
Qed.

(** X6.  Whatever happens in a run of [plot.execute], it saves at most one
    file for each item of the iteration list, and every file it saves is
    the savefile template formatted with the time at the position of one
    of the iterations, the plane index and that iteration. *)
Theorem plot_saves_only_formatted_names
    (actiondict : gmap string value) (its : list value) (f : string) :
  py_iter (iters p) = Ok its →
  f ∈ saved_files (plot_execute w p actiondict).1 →
  (length (saved_files (plot_execute w p actiondict).1) ≤ length its)%nat ∧
  ∃ savefile k i time,
    actiondict !! "savefile" = Some savefile ∧
    its !! k = Some i ∧
    parent_time p k = Ok time ∧
    py_format (formatter w) savefile
      [("time", time); ("iplane", iplane p); ("iter", i)] = Ok f.
Proof.
  intros Hits Hf. split.
  - unfold plot_execute. rewrite W_bind_log, saved_files_app.
    cbn [emit fst snd]. change (saved_files [Stdout "Executing plot"]) with (@nil string).
    cbn [app].
    destruct (plot_options w actiondict) as [o|]; [|simpl; lia].
    rewrite lift_bind, Hits, lift_bind.
    apply plot_loop_saves_at_most_one_each.
  - apply elem_of_saved_files in Hf.
    apply plot_execute_file_event in Hf
      as (o & its' & k & i & time & Ho & Hits' & Hk & Ht & Hf); [|eauto].
    rewrite Hits in Hits'. injection Hits' as <-.
    apply plot_save_events in Hf as (n & savefname & _ & Hfmt & [Hf|Hf]);
      [discriminate Hf|]. injection Hf as ->.
    exists (po_savefile o), k, i, time.
    by rewrite (plot_options_savefile _ _ _ Ho).
Qed.

(** X7.  With the default, empty savefile, [plot.execute] saves no file and
    asks for no directory, whatever else happens in the run. *)
Theorem plot_empty_savefile_saves_nothing (actiondict : gmap string value) :
  actiondict !! "savefile" = Some (VStr "") →
  saved_files (plot_execute w p actiondict).1 = [] ∧
  dirs_made (plot_execute w p actiondict).1 = [].
Proof.
  intros Hsave.
  assert (∀ e, (∃ f, e = Savefig f) ∨ (∃ d, e = Makedirs d) →
               e ∉ (plot_execute w p actiondict).1) as Hno.
  { intros e He Hin.
    apply plot_execute_file_event in Hin
      as (o & its & k & i & time & Ho & _ & _ & _ & Hin); [|done].
    apply plot_save_events in Hin as (n & savefname & Hlen & _).
    apply plot_options_savefile in Ho. rewrite Hsave in Ho.
    injection Ho as Ho. rewrite <- Ho in Hlen. discriminate Hlen. }
  split; apply elem_of_nil_inv.
  - intros f Hf%elem_of_saved_files. eapply Hno; [|done]. eauto.
  - intros d Hd%elem_of_dirs_made. eapply Hno; [|done]. eauto.
Qed.

(** X8.  A savefile template without any placeholder makes every frame
    overwrite the same file: every file [plot.execute] saves is the
    template itself. *)
Theorem plot_template_without_placeholder_one_file
    (actiondict : gmap string value) (template f : string) :
  actiondict !! "savefile" = Some (VStr template) →
  no_brace template = true →
  f ∈ saved_files (plot_execute w p actiondict).1 →
  f = template.
Proof.
  intros Hsave Hplain Hf. apply elem_of_saved_files in Hf.
  apply plot_execute_file_event in Hf
    as (o & its & k & i & time & Ho & _ & _ & _ & Hf); [|eauto].
  apply plot_save_events in Hf as (n & savefname & _ & Hfmt & [Hf|Hf]);
    [discriminate Hf|]. injection Hf as ->.
  apply plot_options_savefile in Ho. rewrite Hsave in Ho. injection Ho as Ho.
  rewrite <- Ho in Hfmt. simpl in Hfmt.
  rewrite (str_format_no_brace _ _ _ Hplain) in Hfmt. congruence.
Qed.
End plot_files.

Lemma plot_saves_only_formatted_names_witness :
  (length (saved_files (plot_execute demo_world demo_parent demo_plot_dict).1)
     ≤ length [VInt 0; VInt 10; VInt 20])%nat ∧
  ∃ savefile k i time,
    demo_plot_dict !! "savefile" = Some savefile ∧
    [VInt 0; VInt 10; VInt 20] !! k = Some i ∧
    parent_time demo_parent k = Ok time ∧
    py_format (formatter demo_world) savefile
      [("time", time); ("iplane", iplane demo_parent); ("iter", i)]
      = Ok "figs/inst_10_457.0_0.png".
Proof.
  apply (plot_saves_only_formatted_names demo_world demo_parent demo_plot_dict).
  - reflexivity.
  - vm_compute. apply list_elem_of_further, list_elem_of_here.
Defined.

Lemma plot_empty_savefile_saves_nothing_witness :
  saved_files (plot_execute demo_world demo_parent
                 (demo_actiondict plot_actiondefs [])).1 = [] ∧
  dirs_made (plot_execute demo_world demo_parent
               (demo_actiondict plot_actiondefs [])).1 = [].
Proof.
  apply (plot_empty_savefile_saves_nothing demo_world demo_parent
           (demo_actiondict plot_actiondefs [])).
  vm_compute; reflexivity.
Defined.

Lemma plot_template_without_placeholder_one_file_witness :
  "figs/wake.png" = "figs/wake.png".
Proof.
  apply (plot_template_without_placeholder_one_file demo_world demo_parent
           (demo_actiondict plot_actiondefs [("savefile", VStr "figs/wake.png")])
           "figs/wake.png" "figs/wake.png").
  - vm_compute; reflexivity.
  - reflexivity.
  - vm_compute. apply list_elem_of_here.
Defined.

(** * Further properties of [animate] and [makegif] *)

Section animation.
Context (w : World) (p : parent).

Lemma for_each_emit {A} (g : A → io) (xs : list A) :
  for_each (λ x, emit (g x)) xs = (g <$> xs, Ok tt).
Proof.
  unfold for_each. generalize 0.
  induction xs as [|x xs IH]; intros start; [done|].
  cbn [for_enumerate_from]. rewrite (IH (S start)). done.
Qed.

(** X9.  When the image names can be built and the first image can be
    read, [animate] opens the video with the width and height of that
    first image, reads and writes every image name once, in order (an
    image that cannot be read is passed on as [None]), releases the video
    and returns. *)
Theorem animate_writes_every_frame_in_order
    (actiondict : gmap string value) (video_name fps imagefilename : value)
    (dir file f : string) (images : list string) (frame : image) :
  actiondict !! "name" = Some video_name →
  py_path_split video_name = Ok (dir, file) →
  actiondict !! "fps" = Some fps →
  actiondict !! "imagefilename" = Some imagefilename →
  animate_images w p imagefilename = Ok (f :: images) →
  imread w f = Some frame →
  animate_execute w p actiondict =
    ([Stdout "Executing animate"; Makedirs (dir +:+ "/");
      VideoWriter video_name fps (img_width frame) (img_height frame)]
     ++ ((λ image, VideoWrite (imread w image)) <$> (f :: images))
     ++ [VideoRelease],
     Ok tt).
Proof.
  intros Hn Hsplit Hfps Himg Himages Hread. unfold animate_execute, getitem.
  rewrite Hn, Hfps, Himg. rewrite !lift_bind, Hsplit, lift_bind.
  rewrite Himages, lift_bind. cbn [first_image]. rewrite lift_bind.
  unfold read_shape. rewrite Hread, lift_bind.
  rewrite (for_each_emit (λ image, VideoWrite (imread w image))). done.
Qed.

(** X10.  With an empty iteration list [animate] has no first image: it
    raises an index error after creating the directory of the video, and
    opens no video. *)
Theorem animate_without_iterations_raises
    (actiondict : gmap string value) (video_name fps imagefilename : value)
    (dir file : string) :
  actiondict !! "name" = Some video_name →
  py_path_split video_name = Ok (dir, file) →
  actiondict !! "fps" = Some fps →
  actiondict !! "imagefilename" = Some imagefilename →
  py_iter (iters p) = Ok [] →
  animate_execute w p actiondict =
    ([Stdout "Executing animate"; Makedirs (dir +:+ "/")], Raise IndexError).
Proof.
  intros Hn Hsplit Hfps Himg Hits. unfold animate_execute, getitem.
  rewrite Hn, Hfps, Himg. rewrite !lift_bind, Hsplit, lift_bind.
  unfold animate_images. rewrite Hits. done.
Qed.

(** X11.  [animate] declares a ['times'] option and never reads it: the
    run is the same whatever that entry is. *)
Theorem animate_ignores_times (actiondict : gmap string value) (v : value) :
  animate_execute w p (<["times" := v]> actiondict) =
  animate_execute w p actiondict.
Proof.
  unfold animate_execute, getitem.
  by rewrite !lookup_insert_ne by done.
Qed.

(** X12.  With imageio present, when the image names can be built,
    [makegif] reads each of them once and writes one animation holding
    exactly the images that could be read, converted to RGB and in the
    order of the names; unreadable ones are left out and the action
    returns. *)
Theorem makegif_encodes_readable_frames
    (actiondict : gmap string value) (video_name fps imagefilename : value)
    (dir file : string) (images : list string) :
  hasimageio w = true →
  actiondict !! "name" = Some video_name →
  py_path_split video_name = Ok (dir, file) →
  actiondict !! "fps" = Some fps →
  actiondict !! "imagefilename" = Some imagefilename →
  makegif_images w p actiondict imagefilename = Ok images →
  makegif_execute w p actiondict =
    ([Stdout "Executing makegif"; Makedirs (dir +:+ "/");
      Mimsave video_name (cvtColor w <$> omap (imread w) images) fps],
     Ok tt).
Proof.
  intros Hio Hn Hsplit Hfps Himg Himages. unfold makegif_execute, getitem.
  rewrite Hio, Hn, Hfps, Himg. cbn [negb].
  rewrite !lift_bind, Hsplit, lift_bind, Himages, lift_bind.
  by rewrite read_frames_skips_unreadable.
Qed.

(** X13.  The silent fallback of [makegif] covers only the evaluation of
    ['times']: when the text evaluates to a value that has no length, the
    error of [len] is raised after the directory is created, and no
    animation is written. *)
Theorem makegif_evaluated_non_sequence_raises
    (actiondict : gmap string value) (src : string)
    (v video_name fps imagefilename : value) (dir file : string) (e : exn) :
  hasimageio w = true →
  actiondict !! "name" = Some video_name →
  py_path_split video_name = Ok (dir, file) →
  actiondict !! "fps" = Some fps →
  actiondict !! "imagefilename" = Some imagefilename →
  actiondict !! "times" = Some (VStr src) →
  evaluator w src = Ok v →
  py_len v = Raise e →
  makegif_execute w p actiondict =
    ([Stdout "Executing makegif"; Makedirs (dir +:+ "/")], Raise e).
Proof.
  intros Hio Hn Hsplit Hfps Himg Hkey Heval Hlen.
  unfold makegif_execute, getitem.
  rewrite Hio, Hn, Hfps, Himg. cbn [negb].
  rewrite !lift_bind, Hsplit, lift_bind.
  unfold makegif_images, makegif_times, get_eval, getitem.
  rewrite Hkey. simpl. rewrite Heval. by rewrite Hlen.
Qed.
End animation.

Lemma animate_writes_every_frame_in_order_witness :
  animate_execute demo_world demo_parent (demo_animate_dict "img_{iter}.png") =
    ([Stdout "Executing animate"; Makedirs ("movies" +:+ "/");
      VideoWriter (VStr "movies/wake.mp4") (VInt 1)
        (img_width (Image 48 64 3 "img_0.png"))
        (img_height (Image 48 64 3 "img_0.png"))]
     ++ ((λ image, VideoWrite (imread demo_world image))
           <$> ("img_0.png" :: ["img_10.png"; "img_20.png"]))
     ++ [VideoRelease],
     Ok tt).
Proof.
  apply (animate_writes_every_frame_in_order demo_world demo_parent
           (demo_animate_dict "img_{iter}.png") (VStr "movies/wake.mp4")
           (VInt 1) (VStr "img_{iter}.png") "movies" "wake.mp4");
    vm_compute; reflexivity.
Defined.

Lemma animate_without_iterations_raises_witness :
  animate_execute demo_world demo_parent_empty
      (demo_animate_dict "img_{iter}.png") =
    ([Stdout "Executing animate"; Makedirs ("movies" +:+ "/")],
     Raise IndexError).
Proof.
  apply (animate_without_iterations_raises demo_world demo_parent_empty
           (demo_animate_dict "img_{iter}.png") (VStr "movies/wake.mp4")
           (VInt 1) (VStr "img_{iter}.png") "movies" "wake.mp4");
    vm_compute; reflexivity.
Defined.

Lemma makegif_encodes_readable_frames_witness :
  makegif_execute demo_world demo_parent (demo_gif_dict []) =
    ([Stdout "Executing makegif"; Makedirs ("movies" +:+ "/");
      Mimsave (VStr "movies/wake.gif")
        (cvtColor demo_world <$>
           omap (imread demo_world)
             ["img_456.0.png"; "img_457.0.png"; "img_458.0.png"])
        (VInt 1)],
     Ok tt).
Proof.
  apply (makegif_encodes_readable_frames demo_world demo_parent
           (demo_gif_dict []) (VStr "movies/wake.gif") (VInt 1)
           (VStr "img_{time}.png") "movies" "wake.gif");
    vm_compute; reflexivity.
Defined.

Lemma makegif_evaluated_non_sequence_raises_witness :
  makegif_execute demo_world demo_parent
      (demo_gif_dict [("times", VStr "lambda t: t")]) =
    ([Stdout "Executing makegif"; Makedirs ("movies" +:+ "/")],
     Raise TypeError).
Proof.
  apply (makegif_evaluated_non_sequence_raises demo_world demo_parent
           (demo_gif_dict [("times", VStr "lambda t: t")]) "lambda t: t"
           (VFun "lambda t: t") (VStr "movies/wake.gif") (VInt 1)
           (VStr "img_{time}.png") "movies" "wake.gif");
    vm_compute; reflexivity.
Defined.

(** * Further properties of the placeholders *)

Section placeholders.
Context (w : World) (p : parent).

Lemma kw_lookup_frame time iplane i name v :
  kw_lookup (frame_kwargs time iplane i) name = Some v →
  name = "time" ∨ name = "iplane" ∨ name = "iter".
Proof.
  cbn [kw_lookup frame_kwargs].
  destruct (String.eqb_spec "time" name) as [<-|_]; [auto|].
  destruct (String.eqb_spec "iplane" name) as [<-|_]; [auto|].
  destruct (String.eqb_spec "iter" name) as [<-|_]; [auto|]. discriminate.
Qed.

(** X14.  For a savefile template with text, one placeholder and text,
    [plot] saves each frame under the text with the placeholder replaced by
    the formatted value of that frame's time, plane index or iteration,
    and creates the directory of that name. *)
Theorem plot_save_substitutes_placeholder
    (o : plot_opts) (pre name post : string) (time i v : value) (s : string) :
  po_savefile o = VStr (pre +:+ "{" +:+ name +:+ "}" +:+ post) →
  no_brace pre = true →
  no_brace post = true →
  plain_name name = true →
  kw_lookup (frame_kwargs time (iplane p) i) name = Some v →
  formatter w (frame_kwargs time (iplane p) i) v "" None "" = Ok s →
  plot_save w p o time i =
    ([Makedirs ((os_path_split (pre +:+ s +:+ post)).1 +:+ "/");
      Savefig (pre +:+ s +:+ post)],
     Ok tt).
Proof.
  intros Hs Hpre Hpost Hname Hkw Hfmt.
  assert (name ≠ "") as Hne.
  { apply kw_lookup_frame in Hkw as [->|[->| ->]]; discriminate. }
  assert (all_digits name = false) as Hdig.
  { by apply kw_lookup_frame in Hkw as [->|[->| ->]]. }
  rewrite (plot_save_eq w p o _ time i Hs).
  2:{ destruct pre; discriminate. }
  rewrite (str_format_literal_prefix _ _ _ _ Hpre).
  rewrite (str_format_plain_field _ _ _ _ Hname Hne).
  unfold render_field. rewrite (split_plain_name _ Hname), Hdig, Hkw, Hfmt.
  rewrite (str_format_no_brace _ _ _ Hpost). done.
Qed.

(** X15.  [plot_radial] formats its savefile without the iteration: a
    template that reaches an [{iter}] placeholder after plain text raises
    the key error of ['iter'], and nothing is printed, created or saved for
    that frame. *)
Theorem plot_radial_save_rejects_iter
    (o : radial_opts) (pre post : string) (time : value) :
  ro_savefile o = VStr (pre +:+ "{iter}" +:+ post) →
  no_brace pre = true →
  plot_radial_save w p o time = ([], Raise (KeyError "iter")).
Proof.
  intros Hs Hpre. unfold plot_radial_save. rewrite Hs.
  cbn [py_len py_format].
  assert (String.length (pre +:+ "{iter}" +:+ post) ≠ 0) as Hlen
    by (destruct pre; discriminate).
  destruct (String.length (pre +:+ "{iter}" +:+ post)) as [|n]; [done|].
  rewrite lift_bind. cbn [Nat.ltb Nat.leb].
  rewrite (str_format_literal_prefix _ _ _ _ Hpre).
  change ("{iter}" +:+ post) with ("{" +:+ "iter" +:+ "}" +:+ post).
  rewrite str_format_plain_field by done. done.
Qed.
End placeholders.

Lemma plot_save_substitutes_placeholder_witness :
  plot_save demo_world demo_parent
      (demo_plot_opts_of ("inst_figs/inst_test_" +:+ "{" +:+ "iter" +:+ "}"
                            +:+ ".png") VNone)
      (VFloat 457) (VInt 10) =
    ([Makedirs ((os_path_split ("inst_figs/inst_test_" +:+ "10" +:+ ".png")).1
                  +:+ "/");
      Savefig ("inst_figs/inst_test_" +:+ "10" +:+ ".png")],
     Ok tt).
Proof.
  apply (plot_save_substitutes_placeholder demo_world demo_parent
           (demo_plot_opts_of ("inst_figs/inst_test_" +:+ "{" +:+ "iter" +:+ "}"
                                 +:+ ".png") VNone)
           "inst_figs/inst_test_" "iter" ".png" (VFloat 457) (VInt 10)
           (VInt 10) "10"); reflexivity.
Defined.

Lemma plot_radial_save_rejects_iter_witness :
  plot_radial_save demo_world demo_parent
      (RadialOpts (VFun "f") (VStr "") (VStr "coolwarm") (VBool true)
         (VStr ("radial_" +:+ "{iter}" +:+ ".png")) (VInt 125)
         (VList [VInt 8; VInt 5]) (VInt 8) (VInt 8) (VFloat 89) VNone VNone
         (VInt 375) (VInt 90))
      (VFloat 456) =
    ([], Raise (KeyError "iter")).
Proof.
  apply (plot_radial_save_rejects_iter demo_world demo_parent
           (RadialOpts (VFun "f") (VStr "") (VStr "coolwarm") (VBool true)
              (VStr ("radial_" +:+ "{iter}" +:+ ".png")) (VInt 125)
              (VList [VInt 8; VInt 5]) (VInt 8) (VInt 8) (VFloat 89) VNone
              VNone (VInt 375) (VInt 90))
           "radial_" ".png"); reflexivity.
Defined.

(** * Further properties of [plot_radial] *)



Section polar_frames_order.
Context (w : World) (p : parent).

Lemma polar_frames_app l1 l2 :
  polar_frames (l1 ++ l2) = polar_frames l1 ++ polar_frames l2.
Proof. apply omap_app. Qed.

Lemma plot_radial_save_no_frame o time :
  polar_frames (plot_radial_save w p o time).1 = [].
Proof.
  unfold plot_radial_save.
  destruct (py_len (ro_savefile o)) as [[|n]|]; simpl; try done.
  by destruct (py_format _ _ _).
Qed.

(** a frame is rendered once, with the time at its position, or the loop
    body raised before rendering it *)
Lemma plot_radial_frame_rendered o r theta iplot i :
  (polar_frames (plot_radial_frame w p o r theta iplot i).1 = [] ∧
   ∃ e, (plot_radial_frame w p o r theta iplot i).2 = Raise e) ∨
  (∃ time, parent_time p iplot = Ok time ∧
     polar_frames (plot_radial_frame w p o r theta iplot i).1 = [(i, time)]).
Proof.
  unfold plot_radial_frame.
  destruct (getitem (db p) "y"); [rewrite lift_bind | left; simpl; eauto].
  destruct (getitem (db p) "z"); [rewrite lift_bind | left; simpl; eauto].
  destruct (parent_time p iplot) as [time|];
    [rewrite lift_bind | left; simpl; eauto].
  destruct (pcolormesh w p o r theta i time) as [[]|];
    [rewrite lift_bind | left; simpl; eauto].
  right. exists time. split; [done|].
  rewrite W_bind_log, polar_frames_app. cbn [emit fst snd].
  rewrite plot_radial_save_no_frame. done.
Qed.

Lemma plot_radial_loop_rendered o r theta its start j i time :
  polar_frames
    (for_enumerate_from start (plot_radial_frame w p o r theta) its).1 !! j
    = Some (i, time) →
  its !! j = Some i ∧ parent_time p (start + j) = Ok time.
Proof.
  revert start j. induction its as [|i0 its IH]; intros start j; [done|].
  cbn [for_enumerate_from]. rewrite W_bind_log, polar_frames_app.
  destruct (plot_radial_frame_rendered o r theta start i0)
    as [[Hnone [e He]]|(t0 & Ht0 & Hone)].
  - rewrite Hnone, He. done.
  - rewrite Hone. destruct j as [|j]; cbn [app lookup list_lookup].
    + intros [= <- <-]. by rewrite Nat.add_0_r.
    + destruct ((plot_radial_frame w p o r theta start i0).2) as [[]|];
        [|done].
      intros H. apply IH in H as [Hj Ht]. by rewrite Nat.add_succ_r.
Qed.

(** X17.  Whatever happens in a run of [plot_radial.execute], the frames it
    renders are those of the iteration list from its start, in order and
    without gaps: the frame rendered at position [j] is the iteration at
    position [j], with the time at position [j]. *)
Theorem plot_radial_renders_in_iteration_order
    (actiondict : gmap string value) (j : nat) (i time : value) :
  polar_frames (plot_radial_execute w p actiondict).1 !! j = Some (i, time) →
  ∃ its,
    py_iter (iters p) = Ok its ∧ its !! j = Some i ∧
    parent_time p j = Ok time.
Proof.
  unfold plot_radial_execute. rewrite W_bind_log, polar_frames_app.
  cbn [emit fst snd polar_frames omap app].
  destruct (plot_radial_options w actiondict) as [o|];
    [rewrite lift_bind | done].
  destruct (polar_grids o) as [[r theta]|]; [rewrite lift_bind | done].
  destruct (py_iter (iters p)) as [its|]; [rewrite lift_bind | done].
  intros H. apply plot_radial_loop_rendered in H as [Hj Ht]. eauto.
Qed.
End polar_frames_order.

Lemma plot_radial_renders_in_iteration_order_witness :
  ∃ its,
    py_iter (iters demo_parent) = Ok its ∧ its !! 1 = Some (VInt 10) ∧
    parent_time demo_parent 1 = Ok (VFloat 457).
Proof.
  apply (plot_radial_renders_in_iteration_order demo_world demo_parent
           (demo_radial_dict "radial_test_{time}.png") 1 (VInt 10) (VFloat 457)).
  vm_compute; reflexivity.
Defined.

(** * Further properties of the colorbar *)

(** X18.  A negative tick count is refused: with a colorbar and contour
    levels, the colorbar is drawn, then [linspace] raises a value error and
    no ticks are set. *)
Theorem negative_tick_count_raises
    (o : plot_opts) (levels : list Q) (k : Z) :
  truthy (po_cbar_inc o) = true →
  po_cbar_nticks o = VInt k →
  levels ≠ [] →
  (k < 0)%Z →
  plot_colorbar o levels =
    ([Colorbar (po_cbar_label o)],
     Raise (ValueError "Number of samples must be non-negative")).
Proof.
  intros Hc Hk Hlev Hneg.
  assert (∃ a b, first_level levels = Ok a ∧ last_level levels = Ok b)
    as (a & b & Ha & Hb).
  { destruct levels as [|a levels]; [done|]. exists a. unfold last_level.
    destruct (last (a :: levels)) as [b|] eqn:Hl; [eauto|].
    by apply last_None in Hl. }
  rewrite (plot_colorbar_ticks o levels a b k) by done.
  unfold linspace. by destruct (Z.ltb_spec k 0); [|lia].
Qed.

Lemma negative_tick_count_raises_witness :
  plot_colorbar (demo_plot_opts (VInt (-2))) [0; 6; 12]%Q =
    ([Colorbar (po_cbar_label (demo_plot_opts (VInt (-2))))],
     Raise (ValueError "Number of samples must be non-negative")).
Proof.
  apply (negative_tick_count_raises (demo_plot_opts (VInt (-2))) [0; 6; 12]%Q
           (-2)); [reflexivity | reflexivity | discriminate | lia].
Defined.
